(** * Script-analysis service: workflow nodes, routing and HTTP endpoints

    A shallow embedding of [graph/nodes.py], [graph/workflow.py] and the
    endpoints of [api/api.py] (the listing endpoint of [api/api_2.py] has the
    same body), with the properties of the workflow state machine, of the
    agent invocation adapter and of the endpoint error handling.

    Python dictionaries are finite maps from strings to Python values,
    exceptions are an explicit [Raise] outcome, and the collaborators that
    the code only calls (the agent, the serializer, the persistence service,
    the clock) are records of behaviours the theorems quantify over. *)

From Stdlib Require Import ZArith QArith Ascii String List.
From stdpp Require Import gmap strings list fin_maps pretty.

Local Open Scope string_scope.
#[local] Set Warnings "-register-all".

(** ** Python values *)

Module Py.

(** The values the workflow state and the agent results are built from.
    [PyFloat] carries the number a float stands for; [PyObj] is an instance
    with the given attributes (what [hasattr] and attribute access see);
    [PyDict] is a nested dictionary. *)
Inductive value : Type :=
| PyNone
| PyBool (b : bool)
| PyInt (n : Z)
| PyFloat (x : Q)
| PyStr (s : string)
| PyList (items : list value)
| PyDict (entries : list (string * value))
| PyObj (attrs : list (string * value)).

(** [bool(v)], as used by [if v:]. *)
Definition truthy (v : value) : bool :=
  match v with
  | PyNone => false
  | PyBool b => b
  | PyInt n => negb (n =? 0)%Z
  | PyFloat x => negb (Qeq_bool x 0)
  | PyStr s => negb (String.eqb s "")
  | PyList items => match items with [] => false | _ => true end
  | PyDict entries => match entries with [] => false | _ => true end
  | PyObj _ => true
  end.

Fixpoint assoc (k : string) (kvs : list (string * value)) : option value :=
  match kvs with
  | [] => None
  | (k', v) :: rest => if String.eqb k k' then Some v else assoc k rest
  end.

(** [getattr v name] is [Some] exactly when [hasattr(v, name)]. *)
Definition getattr (v : value) (name : string) : option value :=
  match v with
  | PyObj attrs => assoc name attrs
  | _ => None
  end.

Definition hasattr (v : value) (name : string) : bool :=
  match getattr v name with Some _ => true | None => false end.

(** [type(v).__name__], for the messages of [TypeError]. *)
Definition type_name (v : value) : string :=
  match v with
  | PyNone => "NoneType"
  | PyBool _ => "bool"
  | PyInt _ => "int"
  | PyFloat _ => "float"
  | PyStr _ => "str"
  | PyList _ => "list"
  | PyDict _ => "dict"
  | PyObj _ => "object"
  end.

(** *** Exceptions

    Instances of [Exception]; [exn_str] is [str(e)].  Signals that derive
    from [BaseException] only (task cancellation, interpreter exit) are not
    exceptions in this sense and are not modelled. *)
Inductive exn_class : Type :=
| AttributeError
| TypeError
| TimeoutError
| HTTPException (status_code : Z) (detail : string)
| OtherException.

Record exn : Type := MkExn { exn_cls : exn_class; exn_str : string }.

Definition is_attribute_error (e : exn) : bool :=
  match exn_cls e with AttributeError => true | _ => false end.

Definition is_timeout_error (e : exn) : bool :=
  match exn_cls e with TimeoutError => true | _ => false end.

Definition is_http_exception (e : exn) : bool :=
  match exn_cls e with HTTPException _ _ => true | _ => false end.

(** The result of evaluating an expression or running a block. *)
Inductive outcome (A : Type) : Type :=
| Return (a : A)
| Raise (e : exn).
Arguments Return {A} a.
Arguments Raise {A} e.

Definition bind {A B} (m : outcome A) (k : A -> outcome B) : outcome B :=
  match m with
  | Return a => k a
  | Raise e => Raise e
  end.

(** [try: body / except AttributeError: handler] *)
Definition try_except_AttributeError {A} (body handler : outcome A) : outcome A :=
  match body with
  | Return a => Return a
  | Raise e => if is_attribute_error e then handler else Raise e
  end.

(** [try: body / except Exception as e: handler e] *)
Definition try_except_Exception {A} (body : outcome A) (handler : exn -> outcome A)
  : outcome A :=
  match body with
  | Return a => Return a
  | Raise e => handler e
  end.

(** [v + [items]]: list concatenation, [TypeError] for any other left
    operand. *)
Definition add_list (v : value) (items : list value) : outcome value :=
  match v with
  | PyList l => Return (PyList (l ++ items)%list)
  | _ =>
      Raise (MkExn TypeError
               ("unsupported operand type(s) for +: '" ++ type_name v ++ "' and 'list'"))
  end.

(** [d.get(k, dflt)] *)
Definition dict_get (d : gmap string value) (k : string) (dflt : value) : value :=
  default dflt (d !! k).

(** [k in d] *)
Definition dict_contains (d : gmap string value) (k : string) : bool :=
  match d !! k with Some _ => true | None => false end.

(** An f-string: literal text and interpolated values, in order. *)
Inductive fpart : Type :=
| Lit (s : string)
| Interp (v : value).

End Py.

Import Py.

(** Sequencing of outcomes is written [x ← m; k]. *)
#[global] Instance outcome_bind : MBind outcome := fun A B k m => Py.bind m k.
#[global] Instance outcome_ret : MRet outcome := fun A a => Return a.

(** ** graph/nodes.py *)

Module Nodes.

(** What [agents.agent.analyst_agent] exports, as far as the node uses it.
    Each call convention of the agent is the outcome of evaluating the whole
    awaited call: a missing method is a [Raise] of class [AttributeError]. *)
Record AgentModule : Type := {
  AnalysisContext : value -> outcome value;
  run_async : list fpart -> value -> outcome value;
  run : list fpart -> value -> outcome value;
  call : list fpart -> value -> outcome value
}.

Definition analysis_prompt (pdf_path : value) : list fpart :=
  [ Lit "
        Perform comprehensive script analysis for: ";
    Interp pdf_path;
    Lit "

        STEP 1: Extract the script text using extract_script_from_pdf_tool
        STEP 2: Analyze ALL aspects and return complete ComprehensiveAnalysis

        This should take exactly 2 API calls total.
        " ].

(** Lines 27-33: the three call conventions. *)
Definition invoke_agent (m : AgentModule) (prompt : list fpart) (context : value)
  : outcome value :=
  try_except_AttributeError (run_async m prompt context)
    (try_except_AttributeError (run m prompt context)
       (call m prompt context)).

(** Lines 38-43: the payload of a result. *)
Definition extract_analysis_data (result : value) : value :=
  match getattr result "output" with
  | Some v => v
  | None =>
      match getattr result "result" with
      | Some v => v
      | None => result
      end
  end.

(** Lines 13-50: the body of the [try]. *)
Definition analyst_agent_try (m : AgentModule) (state : gmap string value)
  (pdf_path : value) : outcome (gmap string value) :=
  context ← AnalysisContext m pdf_path;
  let prompt := analysis_prompt pdf_path in
  result ← invoke_agent m prompt context;
  let analysis_data := extract_analysis_data result in
  let state := <["comprehensive_analysis" := analysis_data]> state in
  let state := <["status" := PyStr "analysis_completed"]> state in
  let state := <["api_calls_used" := PyInt 2]> state in
  Return state.

(** Lines 52-57: the handler. *)
Definition analyst_agent_except (state : gmap string value) (e : exn)
  : outcome (gmap string value) :=
  let state := <["status" := PyStr ("analysis_failed: " ++ exn_str e)]> state in
  errors ← add_list (dict_get state "errors" (PyList [])) [PyStr (exn_str e)];
  let state := <["errors" := errors]> state in
  let state := <["api_calls_used" := PyInt 1]> state in
  Return state.

Definition analyst_agent_node (m : AgentModule) (state : gmap string value)
  : outcome (gmap string value) :=
  let pdf_path := dict_get state "pdf_path" PyNone in
  try_except_Exception (analyst_agent_try m state pdf_path)
    (analyst_agent_except state).

(** Lines 60-72. *)
Definition human_feedback_node (state : gmap string value) : gmap string value :=
  let state :=
    if dict_contains state "feedback_required" then state
    else <["feedback_required" := PyBool false]> state in
  let state :=
    if dict_contains state "feedback_text" then state
    else <["feedback_text" := PyStr ""]> state in
  <["status" := PyStr "analysis_completed"]>
    (<["feedback_required" := PyBool false]> state).

End Nodes.

(** ** graph/workflow.py *)

Module Workflow.

Import Nodes.

(** [langgraph.graph.END] *)
Definition END : string := "__end__".

(** Lines 5-12. *)
Definition should_continue_or_end (state : gmap string value) : string :=
  let feedback_required := dict_get state "feedback_required" (PyBool false) in
  if truthy feedback_required then "unified_analysis" else "END".

(** *** The graph builder

    A [StateGraph] under construction: the keys of its state schema, the
    registered nodes, the entry point, the plain edges and, per source
    node, a routing function with the mapping from its return values to
    targets. *)
Record StateGraph : Type := {
  state_schema : list string;
  nodes : gmap string (gmap string value -> outcome (gmap string value));
  entry_point : option string;
  edges : gmap string string;
  branches : gmap string ((gmap string value -> string) * gmap string string)
}.

(** [StateGraph(schema)] *)
Definition empty_graph (schema : list string) : StateGraph :=
  {| state_schema := schema;
     nodes := ∅; entry_point := None; edges := ∅; branches := ∅ |}.

(** Modelled from the spec: [graph/states.py] is absent; the keys of
    [OptimizedWorkflowState], as the data model of the workflow state lists
    them. *)
Definition OptimizedWorkflowState : list string :=
  ["pdf_path"; "status"; "comprehensive_analysis"; "errors"; "api_calls_used";
   "feedback_required"; "feedback_text"].

Definition add_node (name : string)
  (action : gmap string value -> outcome (gmap string value))
  (g : StateGraph) : StateGraph :=
  {| state_schema := state_schema g;
     nodes := <[name := action]> (nodes g); entry_point := entry_point g;
     edges := edges g; branches := branches g |}.

Definition set_entry_point (name : string) (g : StateGraph) : StateGraph :=
  {| state_schema := state_schema g;
     nodes := nodes g; entry_point := Some name;
     edges := edges g; branches := branches g |}.

Definition add_edge (source target : string) (g : StateGraph) : StateGraph :=
  {| state_schema := state_schema g;
     nodes := nodes g; entry_point := entry_point g;
     edges := <[source := target]> (edges g); branches := branches g |}.

Definition add_conditional_edges (source : string)
  (path : gmap string value -> string) (path_map : gmap string string)
  (g : StateGraph) : StateGraph :=
  {| state_schema := state_schema g;
     nodes := nodes g; entry_point := entry_point g;
     edges := edges g; branches := <[source := (path, path_map)]> (branches g) |}.

(** The mapping passed to [add_conditional_edges] at lines 29-32. *)
Definition path_map : gmap string string :=
  <["analyst_agent" := "analyst_agent"]> (<["END" := END]> ∅).

(** Lines 14-35; [m] is the agent module the analysis node closes over. *)
Definition create_workflow (m : AgentModule) : StateGraph :=
  let workflow := empty_graph OptimizedWorkflowState in
  let workflow := add_node "analyst_agent" (analyst_agent_node m) workflow in
  let workflow :=
    add_node "human_feedback" (fun state => Return (human_feedback_node state))
      workflow in
  let workflow := set_entry_point "analyst_agent" workflow in
  let workflow := add_edge "analyst_agent" "human_feedback" workflow in
  add_conditional_edges "human_feedback" should_continue_or_end path_map workflow.

(** *** Running a compiled graph

    Nodes run one at a time, one per step.  The state holds the keys of
    the schema only: the other keys of the input, and of the mapping a node
    returns, are dropped, and the kept keys of that mapping are written
    over the current state.  After a node, its branch (if any) is asked for
    a route, and the route is looked up in the branch's mapping: a route
    the mapping does not have is a [KeyError]. *)
Inductive routing : Type :=
| Goto (node : string)
| Stop
| RouteKeyError (route : string).

Definition target (t : string) : routing :=
  if String.eqb t END then Stop else Goto t.

Definition next_node (g : StateGraph) (node : string) (state : gmap string value)
  : routing :=
  match branches g !! node with
  | Some (path, targets) =>
      let route := path state in
      match targets !! route with
      | Some t => target t
      | None => RouteKeyError route
      end
  | None =>
      match edges g !! node with
      | Some t => target t
      | None => Stop
      end
  end.

Inductive run_result : Type :=
| Finished (visited : list string) (final : gmap string value)
| NodeRaised (visited : list string) (e : exn)
| RoutingFailed (visited : list string) (route : string)
| UnknownNode (visited : list string) (node : string)
| GraphRecursionError (visited : list string) (state : gmap string value).

(** The part of a mapping that is within the schema. *)
Definition restrict (schema : list string) (m : gmap string value)
  : gmap string value :=
  filter (fun kv => kv.1 ∈ schema) m.

(** [steps] is what is left of the recursion limit.  Every node execution
    takes a step, and so does the check, after the last node, that nothing
    is left to run: a run of [n] nodes ends normally from a limit of
    [n + 1] on, and with a limit of [n] it raises after its last node. *)
Fixpoint run_from (g : StateGraph) (steps : nat) (node : string)
  (state : gmap string value) (visited : list string) : run_result :=
  match steps with
  | O => GraphRecursionError visited state
  | S rest =>
      match nodes g !! node with
      | None => UnknownNode visited node
      | Some action =>
          let visited := (visited ++ [node])%list in
          match action state with
          | Raise e => NodeRaised visited e
          | Return update =>
              let state := restrict (state_schema g) update ∪ state in
              match next_node g node state with
              | Stop =>
                  match rest with
                  | O => GraphRecursionError visited state
                  | S _ => Finished visited state
                  end
              | RouteKeyError route => RoutingFailed visited route
              | Goto next => run_from g rest next state visited
              end
          end
      end
  end.

Definition invoke (g : StateGraph) (recursion_limit : nat)
  (input : gmap string value) : run_result :=
  match entry_point g with
  | Some node =>
      run_from g recursion_limit node (restrict (state_schema g) input) []
  | None => Finished [] (restrict (state_schema g) input)
  end.

(** The limit a run has when the caller gives none. *)
Definition default_recursion_limit : nat := 25.

End Workflow.

(** ** The persistence service, as the endpoints see it *)

Module AnalyzedScriptService.

(** Modelled from the spec: [database/models.py] is absent; a stored
    analysis, with the columns the listing and the save use. *)
Record AnalyzedScript : Type := {
  id : string;
  filename : string;
  status : string;
  created_at : Z;
  file_size_bytes : Z;
  analysis_data : value
}.

(** The keyword arguments of [create_analyzed_script] at the call site of
    [analyze_script]. *)
Record NewScript : Type := {
  new_filename : value;
  new_original_filename : value;
  new_file_size_bytes : Z;
  new_analysis_data : value;
  new_processing_time : value;
  new_api_calls_used : value
}.

(** The operations [api.py] calls on [AnalyzedScriptService] and on the
    records it returns.  The session is the list of stored records; every
    query may raise, and [create_analyzed_script] also returns the store it
    leaves behind. *)
Record Service : Type := {
  create_analyzed_script :
    list AnalyzedScript -> NewScript -> outcome AnalyzedScript * list AnalyzedScript;
  search_scripts :
    list AnalyzedScript -> string -> Z -> Z -> outcome (list AnalyzedScript);
  get_scripts_by_status :
    list AnalyzedScript -> string -> Z -> Z -> outcome (list AnalyzedScript);
  get_scripts_count : list AnalyzedScript -> option string -> outcome Z;
  get_all_analyzed_scripts :
    list AnalyzedScript -> Z -> Z -> string -> string -> outcome (list AnalyzedScript);
  to_summary_dict : AnalyzedScript -> value
}.

End AnalyzedScriptService.

(** ** Text helpers of the error classification *)

Module Text.

(** [c.lower()] on one ASCII character. *)
Definition lower_ascii (c : ascii) : ascii :=
  let n := nat_of_ascii c in
  if (65 <=? n)%nat && (n <=? 90)%nat then ascii_of_nat (n + 32) else c.

Fixpoint lower (s : string) : string :=
  match s with
  | EmptyString => EmptyString
  | String c rest => String (lower_ascii c) (lower rest)
  end.

(** [needle in hay] *)
Fixpoint contains (needle hay : string) : bool :=
  if String.prefix needle hay then true
  else match hay with
       | EmptyString => false
       | String _ rest => contains needle rest
       end.

End Text.

(** ** api/api.py *)

Module Api.

Import Text.
Import AnalyzedScriptService.

Record UploadFile : Type := { upload_filename : value }.

(** [JSONResponse(status_code=..., content=...)] *)
Record JSONResponse : Type := { status_code : Z; content : gmap string value }.

(** What [json.dumps] accepts: [None], booleans, numbers, strings, and
    lists and dictionaries of such; an instance of a class is refused. *)
Fixpoint json_serializable (v : value) : bool :=
  match v with
  | PyNone | PyBool _ | PyInt _ | PyFloat _ | PyStr _ => true
  | PyList items => forallb json_serializable items
  | PyDict entries =>
      forallb (fun kv => match kv with (_, x) => json_serializable x end) entries
  | PyObj _ => false
  end.

(** The body of a response renders when each of its values does. *)
Definition renders (content : gmap string value) : bool :=
  forallb (fun kv => json_serializable kv.2) (map_to_list content).

(** The [TypeError] of [json.dumps].  Its message names the class of the
    refused instance, which a [PyObj] does not carry; [object] stands for
    it. *)
Definition not_json_serializable : exn :=
  MkExn TypeError "Object of type object is not JSON serializable".

(** [JSONResponse(status_code=code, content=content)]: the body is rendered
    when the response is built, and that raises for a body that does not
    render. *)
Definition json_response (code : Z) (content : gmap string value)
  : outcome JSONResponse :=
  if renders content then Return {| status_code := code; content := content |}
  else Raise not_json_serializable.

(** [HTTPException(status_code=..., detail=...)] *)
Definition http_exception (code : Z) (detail : string) : exn :=
  MkExn (HTTPException code detail) (pretty code ++ ": " ++ detail).

(** What a request can change: the stored records and the temporary files
    on disk. *)
Record World : Type := { db : list AnalyzedScript; temp_files : list string }.

(** The collaborators of [analyze_script].  [run_optimized_script_analysis]
    gives, for a path, the time the analysis takes and how it ends;
    [processing_time], its rounding and [timestamp] are clock readings;
    [unlink] is how [os.unlink] ends on a path. *)
Record Env : Type := {
  validate_file : UploadFile -> outcome unit;
  read : UploadFile -> outcome string;
  validate_file_size : string -> outcome Z;
  temp_file_name : string;
  run_optimized_script_analysis : string -> Z * outcome (gmap string value);
  processing_time : value;
  rounded_processing_time : value;
  timestamp : value;
  serialize : gmap string value -> outcome (list (string * value));
  validate_comprehensive_analysis : value -> outcome unit;
  service : Service;
  unlink : string -> outcome unit
}.

(** [asyncio.wait_for(task, timeout)]: the task's own outcome unless it
    takes longer than [timeout]. *)
Definition wait_for {A} (task : Z * outcome A) (timeout : Z) : outcome A :=
  if (timeout <? fst task)%Z then Raise (MkExn TimeoutError "") else snd task.

(** [try: body / except asyncio.TimeoutError: handler] *)
Definition try_except_TimeoutError {A} (body handler : outcome A) : outcome A :=
  match body with
  | Return a => Return a
  | Raise e => if is_timeout_error e then handler else Raise e
  end.

(** Lines 109-119. *)
Definition timed_analysis (env : Env) (temp_file_path : string)
  : outcome (gmap string value) :=
  try_except_TimeoutError
    (wait_for (run_optimized_script_analysis env temp_file_path) 300)
    (Raise (http_exception 408
              "Analysis timed out. Please try with a smaller script.")).

(** Lines 128-133: the validation of the serialized result only logs; this
    is the warning it logs, if any. *)
Definition validation_warning (env : Env) (clean_result : list (string * value))
  : option exn :=
  match assoc "data" clean_result with
  | Some data =>
      match validate_comprehensive_analysis env data with
      | Raise validation_error => Some validation_error
      | Return _ => None
      end
  | None => None
  end.

(** Lines 136-151. *)
Definition response_data (env : Env) (file : UploadFile) (file_size : Z)
  (result : gmap string value) (clean_result : list (string * value))
  : gmap string value :=
  <["data" := default (PyDict clean_result) (assoc "data" clean_result)]>
  (<["metadata" :=
       PyDict [ ("filename", upload_filename file);
                ("file_size_bytes", PyInt file_size);
                ("processing_time_seconds", rounded_processing_time env);
                ("timestamp", timestamp env);
                ("api_calls_used", dict_get result "api_calls_used" (PyInt 2)) ]]>
  (<["optimization_info" :=
       PyDict [ ("actual_calls_used", dict_get result "api_calls_used" (PyInt 2));
                ("expected_calls", PyInt 2) ]]>
  (<["message" := PyStr "Script analysis completed successfully"]>
  (<["success" := PyBool true]> ∅)))).

(** Lines 157-163: the arguments of the save. *)
Definition new_script (env : Env) (file : UploadFile) (file_size : Z)
  (result : gmap string value) (clean_result : list (string * value)) : NewScript :=
  {| new_filename := upload_filename file;
     new_original_filename := upload_filename file;
     new_file_size_bytes := file_size;
     new_analysis_data := PyDict clean_result;
     new_processing_time := processing_time env;
     new_api_calls_used := dict_get result "api_calls_used" (PyInt 2) |}.

(** Lines 153-171. *)
Definition save_analysis (env : Env) (file : UploadFile) (file_size : Z)
  (result : gmap string value) (clean_result : list (string * value))
  (response : gmap string value) (records : list AnalyzedScript)
  : gmap string value * list AnalyzedScript :=
  let saved :=
    create_analyzed_script (service env) records
      (new_script env file file_size result clean_result) in
  match fst saved with
  | Return saved_script =>
      (<["database_id" := PyStr (id saved_script)]> response, snd saved)
  | Raise db_error =>
      (<["database_error" := PyStr (exn_str db_error)]> response, snd saved)
  end.

(** Lines 106-173: the [try] body from the analysis on. *)
Definition analyze_script_try (env : Env) (file : UploadFile) (save_to_db : bool)
  (file_size : Z) (temp_file_path : string) (records : list AnalyzedScript)
  : outcome JSONResponse * list AnalyzedScript :=
  match timed_analysis env temp_file_path with
  | Raise e => (Raise e, records)
  | Return result =>
      match serialize env result with
      | Raise e => (Raise e, records)
      | Return clean_result =>
          let response := response_data env file file_size result clean_result in
          if save_to_db then
            let saved :=
              save_analysis env file file_size result clean_result response records in
            (json_response 200 (fst saved), snd saved)
          else
            (json_response 200 response, records)
      end
  end.

(** Lines 177-188: the classification of an error by its message. *)
Definition classify_error (error_message : string) : exn :=
  let lowered := lower error_message in
  if contains "extract" lowered then
    http_exception 422 ("PDF extraction failed: " ++ error_message)
  else if contains "validation" lowered then
    http_exception 422 ("Script validation failed: " ++ error_message)
  else if contains "analysis" lowered then
    http_exception 500 ("Analysis failed: " ++ error_message)
  else
    http_exception 500 ("Unexpected error: " ++ error_message).

(** Lines 175-188: [except HTTPException: raise / except Exception as e]. *)
Definition analyze_script_except {A} (r : outcome A) : outcome A :=
  match r with
  | Return a => Return a
  | Raise e =>
      if is_http_exception e then Raise e else Raise (classify_error (exn_str e))
  end.

(** Lines 190-196: the [finally] block.  A failure of [os.unlink] is
    logged and the file stays. *)
Definition cleanup (unlink : string -> outcome unit)
  (temp_file_path : option string) (files : list string) : list string :=
  match temp_file_path with
  | Some path =>
      if negb (String.eqb path "") && existsb (String.eqb path) files
      then match unlink path with
           | Return _ => List.filter (fun f => negb (String.eqb f path)) files
           | Raise cleanup_error => files
           end
      else files
  | None => files
  end.

(** Lines 76-196.  The temporary file exists as soon as it is opened; its
    path is bound only when the [with] block ends normally. *)
Definition analyze_script (env : Env) (file : UploadFile) (save_to_db : bool)
  (w : World) : outcome JSONResponse * World :=
  match validate_file env file with
  | Raise e => (Raise e, w)
  | Return _ =>
      let files := temp_file_name env :: temp_files w in
      let written := content ← read env file; validate_file_size env content in
      match written with
      | Raise e =>
          (analyze_script_except (Raise e),
           {| db := db w; temp_files := cleanup (unlink env) None files |})
      | Return file_size =>
          let temp_file_path := temp_file_name env in
          let r := analyze_script_try env file save_to_db file_size
                     temp_file_path (db w) in
          (analyze_script_except (fst r),
           {| db := snd r;
              temp_files := cleanup (unlink env) (Some temp_file_path) files |})
      end
  end.

(** [if s:] on an optional query string. *)
Definition given (s : option string) : option string :=
  match s with
  | Some text => if String.eqb text "" then None else Some text
  | None => None
  end.

Definition len {A} (l : list A) : Z := Z.of_nat (length l).

(** Lines 212-236 (lines 293-317 of [api_2.py]): the page and its total. *)
Definition select_scripts (svc : Service) (skip limit : Z)
  (order_by order_direction : string) (status_filter search : option string)
  (records : list AnalyzedScript) : outcome (list AnalyzedScript * Z) :=
  match given search with
  | Some term =>
      scripts ← search_scripts svc records term skip limit;
      Return (scripts, len scripts)
  | None =>
      match given status_filter with
      | Some wanted =>
          scripts ← get_scripts_by_status svc records wanted skip limit;
          total_count ← get_scripts_count svc records (Some wanted);
          Return (scripts, total_count)
      | None =>
          scripts ← AnalyzedScriptService.get_all_analyzed_scripts svc records
                      skip limit order_by order_direction;
          total_count ← get_scripts_count svc records None;
          Return (scripts, total_count)
      end
  end.

(** Lines 238-249 (319-330). *)
Definition page (svc : Service) (skip limit : Z) (search : option string)
  (scripts : list AnalyzedScript) (total_count : Z) : gmap string value :=
  <["search_term" := match search with Some s => PyStr s | None => PyNone end]>
  (<["pagination" :=
       PyDict [ ("total", PyInt total_count);
                ("skip", PyInt skip);
                ("limit", PyInt limit);
                ("returned", PyInt (len scripts));
                ("has_more", PyBool (skip + len scripts <? total_count)%Z) ]]>
  (<["data" := PyList (List.map (to_summary_dict svc) scripts)]>
  (<["success" := PyBool true]> ∅))).

(** Lines 200-253 (281-334). *)
Definition get_all_analyzed_scripts (svc : Service) (skip limit : Z)
  (order_by order_direction : string) (status_filter search : option string)
  (records : list AnalyzedScript) : outcome (gmap string value) :=
  try_except_Exception
    (selected ← select_scripts svc skip limit order_by order_direction
                  status_filter search records;
     Return (page svc skip limit search (fst selected) (snd selected)))
    (fun e =>
       Raise (http_exception 500 ("Failed to retrieve scripts: " ++ exn_str e))).

End Api.

(** ** A store for the persistence service *)

Module Store.

Import Text.
Import AnalyzedScriptService.

(** Modelled from the spec: [database/services.py] is absent; a page is the
    [limit] records that follow the first [skip] ones. *)
Definition paginate {A} (skip limit : Z) (l : list A) : list A :=
  take (Z.to_nat limit) (drop (Z.to_nat skip) l).

(** Modelled from the spec: [database/services.py] is absent; the column a
    listing is ordered by, the creation time unless the size is asked for. *)
Definition order_key (order_by : string) (r : AnalyzedScript) : Z :=
  if String.eqb order_by "file_size_bytes" then file_size_bytes r else created_at r.

(** Modelled from the spec: [database/services.py] is absent; insertion of
    one record into a list ordered by [key]. *)
Fixpoint insert_by (key : AnalyzedScript -> Z) (r : AnalyzedScript)
  (l : list AnalyzedScript) : list AnalyzedScript :=
  match l with
  | [] => [r]
  | r' :: rest =>
      if (key r <=? key r')%Z then r :: r' :: rest
      else r' :: insert_by key r rest
  end.

(** Modelled from the spec: [database/services.py] is absent; the ordering
    of a listing, ascending or descending. *)
Definition order_scripts (order_by order_direction : string)
  (l : list AnalyzedScript) : list AnalyzedScript :=
  let ascending := foldr (insert_by (order_key order_by)) [] l in
  if String.eqb order_direction "desc" then rev ascending else ascending.

(** Modelled from the spec: [database/services.py] is absent; the optional
    status filter of a listing. *)
Definition with_status (wanted : option string) (l : list AnalyzedScript)
  : list AnalyzedScript :=
  match wanted with
  | Some s => List.filter (fun r => String.eqb (status r) s) l
  | None => l
  end.

(** Modelled from the spec: [database/services.py] is absent; the search
    term of a listing selects on the file name. *)
Definition matching (term : string) (l : list AnalyzedScript) : list AnalyzedScript :=
  List.filter (fun r => contains (lower term) (lower (filename r))) l.

(** Modelled from the spec: [database/models.py] is absent; the summary of a
    record. *)
Definition summary (r : AnalyzedScript) : value :=
  PyDict [ ("id", PyStr (id r));
           ("filename", PyStr (filename r));
           ("status", PyStr (status r));
           ("file_size_bytes", PyInt (file_size_bytes r)) ].

(** Modelled from the spec: [database/services.py] is absent; saving adds
    one record, identified by its position, and returns it. *)
Definition create (records : list AnalyzedScript) (n : NewScript)
  : outcome AnalyzedScript * list AnalyzedScript :=
  let r := {| id := pretty (length records);
              filename := match new_filename n with PyStr s => s | _ => "" end;
              status := "completed";
              created_at := Z.of_nat (length records);
              file_size_bytes := new_file_size_bytes n;
              analysis_data := new_analysis_data n |} in
  (Return r, (records ++ [r])%list).

(** Modelled from the spec: [database/services.py] is absent; the service
    over a list of records: pagination, ordering, status filter, search. *)
Definition service : Service :=
  {| create_analyzed_script := create;
     search_scripts := fun records term skip limit =>
       Return (paginate skip limit (matching term records));
     get_scripts_by_status := fun records wanted skip limit =>
       Return (paginate skip limit (with_status (Some wanted) records));
     get_scripts_count := fun records wanted =>
       Return (Z.of_nat (length (with_status wanted records)));
     get_all_analyzed_scripts := fun records skip limit order_by order_direction =>
       Return (paginate skip limit (order_scripts order_by order_direction records));
     to_summary_dict := summary |}.

End Store.

(** ** Observations on a workflow state *)

Module Observe.

(** Modelled from the spec: [graph/states.py] is absent; [errors] is
    declared as an ordered sequence of messages, so the entry, when there is
    one, is a list.  On any other entry the [+] of the failure handler
    raises [TypeError]. *)
Definition errors_well_typed (state : gmap string value) : bool :=
  match state !! "errors" with
  | None | Some (PyList _) => true
  | Some _ => false
  end.

(** The errors recorded so far: [state.get('errors', [])] on a well-typed
    state. *)
Definition recorded_errors (state : gmap string value) : list value :=
  match state !! "errors" with
  | Some (PyList l) => l
  | _ => []
  end.

Definition api_calls_used_is (n : Z) (state : gmap string value) : bool :=
  match state !! "api_calls_used" with
  | Some (PyInt k) => (k =? n)%Z
  | _ => false
  end.

(** [comprehensive_analysis] present and [api_calls_used == 2]. *)
Definition analysed (state : gmap string value) : bool :=
  dict_contains state "comprehensive_analysis" && api_calls_used_is 2 state.

(** [errors] non-empty and [api_calls_used == 1]. *)
Definition failed (state : gmap string value) : bool :=
  match recorded_errors state with [] => false | _ => true end
  && api_calls_used_is 1 state.

(** The keys the failure handler of the analysis node assigns. *)
Definition failure_keys : list string := ["status"; "errors"; "api_calls_used"].

End Observe.

(** ** The call conventions, as the specification words them *)

Module Conventions.

Import Nodes.

(** The specification's reading of the adapter: the result of the first of
    [run_async], [run] and the direct call that succeeds, in that order. *)
Definition first_convention_that_succeeds (m : AgentModule)
  (prompt : list fpart) (context : value) : option value :=
  match run_async m prompt context with
  | Return r => Some r
  | Raise _ =>
      match run m prompt context with
      | Return r => Some r
      | Raise _ =>
          match call m prompt context with
          | Return r => Some r
          | Raise _ => None
          end
      end
  end.

(** A convention falls through to the next one when it raises
    [AttributeError]. *)
Definition falls_through {A} (o : outcome A) : bool :=
  match o with
  | Raise e => is_attribute_error e
  | Return _ => false
  end.

End Conventions.

(** ** Sample agents, states and environments *)

Module Samples.

Import Nodes AnalyzedScriptService.

Definition no_attribute (name : string) : exn :=
  MkExn AttributeError ("'Agent' object has no attribute '" ++ name ++ "'").

Definition analysis : value :=
  PyObj [("output", PyDict [("total_scenes", PyInt 12)])].

Definition corrupt_pdf : exn := MkExn OtherException "extraction failed: corrupt PDF".

(** An agent with a [run] method only. *)
Definition run_only : AgentModule :=
  {| AnalysisContext := fun pdf_path => Return (PyObj [("pdf_path", pdf_path)]);
     run_async := fun _ _ => Raise (no_attribute "run_async");
     run := fun _ _ => Return analysis;
     call := fun _ _ => Raise (MkExn TypeError "'Agent' object is not callable") |}.

(** An agent whose [run_async] fails on the document and whose [run] would
    succeed. *)
Definition flaky : AgentModule :=
  {| AnalysisContext := fun pdf_path => Return (PyObj [("pdf_path", pdf_path)]);
     run_async := fun _ _ => Raise corrupt_pdf;
     run := fun _ _ => Return analysis;
     call := fun _ _ => Return analysis |}.

Definition context : value := PyObj [("pdf_path", PyStr "script.pdf")].

Definition prompt : list fpart := analysis_prompt (PyStr "script.pdf").

Definition initial_state : gmap string value :=
  <["errors" := PyList []]> (<["pdf_path" := PyStr "script.pdf"]> ∅).

Definition looping_state : gmap string value :=
  <["feedback_required" := PyBool true]> initial_state.

(** The state a successful workflow run ends in. *)
Definition finished_state : gmap string value :=
  <["status" := PyStr "analysis_completed"]>
    (<["feedback_required" := PyBool false]>
      (<["api_calls_used" := PyInt 2]>
        (<["comprehensive_analysis" := PyDict [("total_scenes", PyInt 12)]]>
          initial_state))).

Definition upload : Api.UploadFile := {| Api.upload_filename := PyStr "script.pdf" |}.

(** A service whose database is unreachable when saving. *)
Definition unreachable : Service :=
  {| create_analyzed_script := fun records _ =>
       (Raise (MkExn OtherException "connection refused"), records);
     search_scripts := search_scripts Store.service;
     get_scripts_by_status := get_scripts_by_status Store.service;
     get_scripts_count := get_scripts_count Store.service;
     get_all_analyzed_scripts := get_all_analyzed_scripts Store.service;
     to_summary_dict := to_summary_dict Store.service |}.

(** An environment in which the analysis takes [duration] time units. *)
Definition env (duration : Z) (svc : Service) : Api.Env :=
  {| Api.validate_file := fun _ => Return tt;
     Api.read := fun _ => Return "%PDF-1.4";
     Api.validate_file_size := fun content => Return (Z.of_nat (String.length content));
     Api.temp_file_name := "/tmp/tmpk3v9x2.pdf";
     Api.run_optimized_script_analysis := fun _ => (duration, Return finished_state);
     Api.processing_time := PyFloat (duration # 1);
     Api.rounded_processing_time := PyFloat (duration # 1);
     Api.timestamp := PyStr "2025-01-01T00:00:00";
     Api.serialize := fun result =>
       Return [("data", dict_get result "comprehensive_analysis" PyNone)];
     Api.validate_comprehensive_analysis := fun _ => Return tt;
     Api.service := svc;
     Api.unlink := fun _ => Return tt |}.

Definition world : Api.World := {| Api.db := []; Api.temp_files := [] |}.

End Samples.

(** ** api/api.py: the endpoints by identifier *)

Module AnalyzedScriptLookup.

Import AnalyzedScriptService.

(** The operations by identifier that [api.py] calls on
    [AnalyzedScriptService], and [to_dict] of the records.  A lookup gives
    the record or [None]; a deletion tells whether a record was removed and
    returns the store it leaves behind. *)
Record Lookup : Type := {
  get_analyzed_script_by_id :
    list AnalyzedScript -> string -> outcome (option AnalyzedScript);
  delete_analyzed_script :
    list AnalyzedScript -> string -> outcome bool * list AnalyzedScript;
  to_dict : AnalyzedScript -> value
}.

End AnalyzedScriptLookup.

Module ApiById.

Import AnalyzedScriptService Api.

(** [except HTTPException: raise / except Exception as e:
    raise HTTPException(status_code=500, detail=prefix + str(e))] *)
Definition reraise_or_500 {A} (prefix : string) (r : outcome A) : outcome A :=
  match r with
  | Return a => Return a
  | Raise e =>
      if is_http_exception e then Raise e
      else Raise (http_exception 500 (prefix ++ exn_str e))
  end.

Definition not_found : exn := http_exception 404 "Analyzed script not found".

(** Lines 257-279 of [api.py] (338-360 of [api_2.py]). *)
Definition get_analyzed_script (svc : AnalyzedScriptLookup.Lookup)
  (script_id : string) (records : list AnalyzedScript)
  : outcome (gmap string value) :=
  reraise_or_500 "Failed to retrieve script: "
    (script ← AnalyzedScriptLookup.get_analyzed_script_by_id svc records script_id;
     match script with
     | None => Raise not_found
     | Some script =>
         Return (<["message" := PyStr "Script retrieved successfully"]>
                (<["data" := AnalyzedScriptLookup.to_dict svc script]>
                (<["success" := PyBool true]> ∅)))
     end).

(** Lines 283-304 of [api.py] (364-385 of [api_2.py]). *)
Definition delete_analyzed_script (svc : AnalyzedScriptLookup.Lookup)
  (script_id : string) (records : list AnalyzedScript)
  : outcome (gmap string value) * list AnalyzedScript :=
  let deleted := AnalyzedScriptLookup.delete_analyzed_script svc records script_id in
  (reraise_or_500 "Failed to delete script: "
     (deleted ← fst deleted;
      if negb deleted then Raise not_found
      else
        Return (<["message" :=
                    PyStr ("Analyzed script " ++ script_id ++ " deleted successfully")]>
               (<["success" := PyBool true]> ∅))),
   snd deleted).

End ApiById.

(** ** api/api_2.py: analysis and saving as two endpoints *)

Module Api2.

Import AnalyzedScriptService Api.

(** The methods of the analysis object and the model class that
    [analyze_script] and [save_analysis_to_database] call. *)
Record Pydantic : Type := {
  model_dump : value -> outcome value;
  dict : value -> outcome value;
  ComprehensiveAnalysis : value -> outcome value
}.

Definition no_analysis : exn :=
  http_exception 500 "Analysis completed but no comprehensive analysis data found".

(** Lines 133-139. *)
Definition to_analysis_data (p : Pydantic) (comprehensive_analysis : value)
  : outcome value :=
  if hasattr comprehensive_analysis "model_dump" then
    model_dump p comprehensive_analysis
  else if hasattr comprehensive_analysis "dict" then
    dict p comprehensive_analysis
  else Return comprehensive_analysis.

(** Lines 152-159. *)
Definition enhanced_metadata (env : Env) (file : UploadFile) (file_size : Z)
  (result : gmap string value) : value :=
  PyDict [ ("filename", upload_filename file);
           ("original_filename", upload_filename file);
           ("file_size_bytes", PyInt file_size);
           ("processing_time_seconds", rounded_processing_time env);
           ("timestamp", timestamp env);
           ("api_calls_used", dict_get result "api_calls_used" (PyInt 2)) ].

(** Lines 162-169. *)
Definition save_request_data (env : Env) (file : UploadFile) (file_size : Z)
  (result : gmap string value) (analysis_data : value) : value :=
  PyDict [ ("filename", upload_filename file);
           ("original_filename", upload_filename file);
           ("file_size_bytes", PyInt file_size);
           ("analysis_data", analysis_data);
           ("processing_time_seconds", rounded_processing_time env);
           ("api_calls_used", dict_get result "api_calls_used" (PyInt 2)) ].

(** Lines 172-191. *)
Definition response_data (env : Env) (file : UploadFile) (file_size : Z)
  (result : gmap string value) (analysis_data : value) : gmap string value :=
  <["save_request" := save_request_data env file file_size result analysis_data]>
  (<["analysis_data" := analysis_data]>
  (<["data" := analysis_data]>
  (<["metadata" := enhanced_metadata env file file_size result]>
  (<["optimization_info" :=
       PyDict [ ("actual_calls_used", dict_get result "api_calls_used" (PyInt 2));
                ("expected_calls", PyInt 2) ]]>
  (<["message" := PyStr "Script analysis completed successfully"]>
  (<["success" := PyBool true]> ∅)))))).

(** Lines 142-149: the validation only logs; this is the warning, if any. *)
Definition validation_warning (p : Pydantic) (analysis_data : value) : option exn :=
  match ComprehensiveAnalysis p analysis_data with
  | Raise validation_error => Some validation_error
  | Return _ => None
  end.

(** Lines 106-196: the [try] body from the analysis on. *)
Definition analyze_script_try (env : Env) (p : Pydantic) (file : UploadFile)
  (file_size : Z) (temp_file_path : string) : outcome JSONResponse :=
  result ← timed_analysis env temp_file_path;
  let comprehensive_analysis := dict_get result "comprehensive_analysis" PyNone in
  if negb (truthy comprehensive_analysis) then Raise no_analysis
  else
    analysis_data ← to_analysis_data p comprehensive_analysis;
    json_response 200 (response_data env file file_size result analysis_data).

(** Lines 84-219.  The endpoint has no database session: what it can
    change is the set of temporary files. *)
Definition analyze_script (env : Env) (p : Pydantic) (file : UploadFile)
  (files : list string) : outcome JSONResponse * list string :=
  match validate_file env file with
  | Raise e => (Raise e, files)
  | Return _ =>
      let files := temp_file_name env :: files in
      let written := content ← read env file; validate_file_size env content in
      match written with
      | Raise e =>
          (analyze_script_except (Raise e), cleanup (unlink env) None files)
      | Return file_size =>
          let temp_file_path := temp_file_name env in
          (analyze_script_except
             (analyze_script_try env p file file_size temp_file_path),
           cleanup (unlink env) (Some temp_file_path) files)
      end
  end.

(** The body of [POST /save-analysis], as the endpoint reads it. *)
Record SaveAnalysisRequest : Type := {
  req_filename : value;
  req_original_filename : value;
  req_file_size_bytes : Z;
  req_analysis_data : value;
  req_processing_time_seconds : value;
  req_api_calls_used : value
}.

(** The columns of a saved record that the response of the save reports
    and that [AnalyzedScript] here does not carry; [created_at_isoformat] is
    [created_at.isoformat()], which raises when there is no creation
    time. *)
Record SavedColumns : Type := {
  created_at_isoformat : AnalyzedScript -> outcome string;
  original_filename : AnalyzedScript -> value;
  processing_time_seconds : AnalyzedScript -> value;
  api_calls_used : AnalyzedScript -> value;
  total_scenes : AnalyzedScript -> value;
  estimated_budget : AnalyzedScript -> value;
  budget_category : AnalyzedScript -> value
}.

(** [a or b] *)
Definition py_or (a b : value) : value := if truthy a then a else b.

(** Lines 243-248: the arguments of the save. *)
Definition new_script_of_request (request : SaveAnalysisRequest) : NewScript :=
  {| new_filename := req_filename request;
     new_original_filename :=
       py_or (req_original_filename request) (req_filename request);
     new_file_size_bytes := req_file_size_bytes request;
     new_analysis_data := req_analysis_data request;
     new_processing_time := req_processing_time_seconds request;
     new_api_calls_used := req_api_calls_used request |}.

(** Lines 251-267. *)
Definition saved_response (cols : SavedColumns) (saved_script : AnalyzedScript)
  (saved_at : string) : gmap string value :=
  <["metadata" :=
      PyDict [ ("filename", PyStr (filename saved_script));
               ("original_filename", original_filename cols saved_script);
               ("file_size_bytes", PyInt (file_size_bytes saved_script));
               ("processing_time_seconds", processing_time_seconds cols saved_script);
               ("api_calls_used", api_calls_used cols saved_script);
               ("status", PyStr (status saved_script));
               ("total_scenes", total_scenes cols saved_script);
               ("estimated_budget", estimated_budget cols saved_script);
               ("budget_category", budget_category cols saved_script) ]]>
  (<["saved_at" := PyStr saved_at]>
  (<["database_id" := PyStr (id saved_script)]>
  (<["message" := PyStr "Analysis saved to database successfully"]>
  (<["success" := PyBool true]> ∅)))).

(** Lines 231-238: the validation of the request only logs; this is the
    warning, if any.  [validate] is [AnalysisValidator]'s check. *)
Definition request_warning (p : Pydantic) (validate : value -> outcome unit)
  (request : SaveAnalysisRequest) : option exn :=
  match (temp_analysis ← ComprehensiveAnalysis p (req_analysis_data request);
         validate temp_analysis) with
  | Raise validation_error => Some validation_error
  | Return _ => None
  end.

(** Lines 223-277. *)
Definition save_analysis_to_database (svc : Service) (cols : SavedColumns)
  (request : SaveAnalysisRequest) (records : list AnalyzedScript)
  : outcome JSONResponse * list AnalyzedScript :=
  let saved := create_analyzed_script svc records (new_script_of_request request) in
  (try_except_Exception
     (saved_script ← fst saved;
      saved_at ← created_at_isoformat cols saved_script;
      json_response 201 (saved_response cols saved_script saved_at))
     (fun e =>
        Raise (http_exception 500
                 ("Failed to save analysis to database: " ++ exn_str e))),
   snd saved).

End Api2.

(** ** The two shapes of a state after the analysis node *)

Module Shapes.

(** The keys the success path of the analysis node assigns. *)
Definition success_keys : list string :=
  ["comprehensive_analysis"; "status"; "api_calls_used"].

(** The keys either node of the graph assigns. *)
Definition assigned_keys : list string :=
  ["comprehensive_analysis"; "status"; "api_calls_used"; "errors";
   "feedback_required"; "feedback_text"].

(** The state after a success with payload [data]. *)
Definition succeeded (state : gmap string value) (data : value) : gmap string value :=
  <["api_calls_used" := PyInt 2]>
    (<["status" := PyStr "analysis_completed"]>
      (<["comprehensive_analysis" := data]> state)).

(** The state after a failure with message [msg], on recorded errors [l]. *)
Definition absorbed (state : gmap string value) (l : list value) (msg : string)
  : gmap string value :=
  <["api_calls_used" := PyInt 1]>
    (<["errors" := PyList (l ++ [PyStr msg])]>
      (<["status" := PyStr ("analysis_failed: " ++ msg)]> state)).

End Shapes.

(** ** More sample data *)

Module MoreSamples.

Import AnalyzedScriptService.

(** An agent module whose context cannot be built for the path. *)
Definition no_context : Nodes.AgentModule :=
  {| Nodes.AnalysisContext := fun _ =>
       Raise (MkExn OtherException "validation error for AnalysisContext");
     Nodes.run_async := fun _ _ => Return Samples.analysis;
     Nodes.run := fun _ _ => Return Samples.analysis;
     Nodes.call := fun _ _ => Return Samples.analysis |}.

Definition stored : AnalyzedScript :=
  {| id := "0"; filename := "script.pdf"; status := "completed";
     created_at := 0; file_size_bytes := 8;
     analysis_data := PyDict [("data", PyDict [("total_scenes", PyInt 12)])] |}.

(** Modelled from the spec: [database/services.py] is absent; lookup and
    deletion by identifier over a list of records. *)
Definition lookup : AnalyzedScriptLookup.Lookup :=
  {| AnalyzedScriptLookup.get_analyzed_script_by_id := fun records script_id =>
       Return (List.find (fun r => String.eqb (id r) script_id) records);
     AnalyzedScriptLookup.delete_analyzed_script := fun records script_id =>
       (Return (existsb (fun r => String.eqb (id r) script_id) records),
        List.filter (fun r => negb (String.eqb (id r) script_id)) records);
     AnalyzedScriptLookup.to_dict := fun r =>
       PyDict [("id", PyStr (id r)); ("analysis_data", analysis_data r)] |}.

(** A lookup whose database is unreachable. *)
Definition unreachable_lookup : AnalyzedScriptLookup.Lookup :=
  {| AnalyzedScriptLookup.get_analyzed_script_by_id := fun _ _ =>
       Raise (MkExn OtherException "connection refused");
     AnalyzedScriptLookup.delete_analyzed_script := fun records _ =>
       (Raise (MkExn OtherException "connection refused"), records);
     AnalyzedScriptLookup.to_dict := fun _ => PyNone |}.

(** Analysis objects are plain dictionaries here: no method is called. *)
Definition pydantic : Api2.Pydantic :=
  {| Api2.model_dump := fun v => Return v;
     Api2.dict := fun v => Return v;
     Api2.ComprehensiveAnalysis := fun v => Return v |}.

Definition columns : Api2.SavedColumns :=
  {| Api2.created_at_isoformat := fun _ => Return "2025-01-01T00:00:00";
     Api2.original_filename := fun r => PyStr (filename r);
     Api2.processing_time_seconds := fun _ => PyFloat (12 # 1);
     Api2.api_calls_used := fun _ => PyInt 2;
     Api2.total_scenes := fun _ => PyInt 12;
     Api2.estimated_budget := fun _ => PyNone;
     Api2.budget_category := fun _ => PyNone |}.

Definition request : Api2.SaveAnalysisRequest :=
  {| Api2.req_filename := PyStr "script.pdf";
     Api2.req_original_filename := PyNone;
     Api2.req_file_size_bytes := 8;
     Api2.req_analysis_data := PyDict [("total_scenes", PyInt 12)];
     Api2.req_processing_time_seconds := PyFloat (12 # 1);
     Api2.req_api_calls_used := PyInt 2 |}.

(** A service whose database is unreachable for every operation. *)
Definition down : Service :=
  {| create_analyzed_script := fun records _ =>
       (Raise (MkExn OtherException "connection refused"), records);
     search_scripts := fun _ _ _ _ => Raise (MkExn OtherException "connection refused");
     get_scripts_by_status := fun _ _ _ _ =>
       Raise (MkExn OtherException "connection refused");
     get_scripts_count := fun _ _ => Raise (MkExn OtherException "connection refused");
     get_all_analyzed_scripts := fun _ _ _ _ _ =>
       Raise (MkExn OtherException "connection refused");
     to_summary_dict := fun _ => PyNone |}.

(** An environment whose upload is rejected for its size. *)
Definition too_large : Api.Env :=
  {| Api.validate_file := fun _ => Return tt;
     Api.read := fun _ => Return "%PDF-1.4";
     Api.validate_file_size := fun _ =>
       Raise (MkExn (HTTPException 413 "File too large") "413: File too large");
     Api.temp_file_name := "/tmp/tmpk3v9x2.pdf";
     Api.run_optimized_script_analysis := fun _ => (12%Z, Return Samples.finished_state);
     Api.processing_time := PyFloat (12 # 1);
     Api.rounded_processing_time := PyFloat (12 # 1);
     Api.timestamp := PyStr "2025-01-01T00:00:00";
     Api.serialize := fun result => Return [];
     Api.validate_comprehensive_analysis := fun _ => Return tt;
     Api.service := Store.service;
     Api.unlink := fun _ => Return tt |}.

(** An environment whose temporary file cannot be unlinked. *)
Definition locked : Api.Env :=
  {| Api.validate_file := fun _ => Return tt;
     Api.read := fun _ => Return "%PDF-1.4";
     Api.validate_file_size := fun content => Return (Z.of_nat (String.length content));
     Api.temp_file_name := "/tmp/tmpk3v9x2.pdf";
     Api.run_optimized_script_analysis := fun _ => (12%Z, Return Samples.finished_state);
     Api.processing_time := PyFloat (12 # 1);
     Api.rounded_processing_time := PyFloat (12 # 1);
     Api.timestamp := PyStr "2025-01-01T00:00:00";
     Api.serialize := fun result => Return [];
     Api.validate_comprehensive_analysis := fun _ => Return tt;
     Api.service := Store.service;
     Api.unlink := fun _ => Raise (MkExn OtherException "Permission denied") |}.

(** An environment whose analysis raises [e] after twelve time units. *)
Definition failing (e : exn) : Api.Env :=
  {| Api.validate_file := fun _ => Return tt;
     Api.read := fun _ => Return "%PDF-1.4";
     Api.validate_file_size := fun content => Return (Z.of_nat (String.length content));
     Api.temp_file_name := "/tmp/tmpk3v9x2.pdf";
     Api.run_optimized_script_analysis := fun _ => (12%Z, Raise e);
     Api.processing_time := PyFloat (12 # 1);
     Api.rounded_processing_time := PyFloat (12 # 1);
     Api.timestamp := PyStr "2025-01-01T00:00:00";
     Api.serialize := fun result => Return [];
     Api.validate_comprehensive_analysis := fun _ => Return tt;
     Api.service := Store.service;
     Api.unlink := fun _ => Return tt |}.

(** The state a workflow run ends in after a failed analysis. *)
Definition failed_state : gmap string value :=
  <["status" := PyStr "analysis_completed"]>
    (<["feedback_text" := PyStr ""]>
      (<["feedback_required" := PyBool false]>
        (Shapes.absorbed Samples.initial_state [] "extraction failed: corrupt PDF"))).

(** An environment whose analysis returns [failed_state]. *)
Definition failed_run : Api.Env :=
  {| Api.validate_file := fun _ => Return tt;
     Api.read := fun _ => Return "%PDF-1.4";
     Api.validate_file_size := fun content => Return (Z.of_nat (String.length content));
     Api.temp_file_name := "/tmp/tmpk3v9x2.pdf";
     Api.run_optimized_script_analysis := fun _ => (12%Z, Return failed_state);
     Api.processing_time := PyFloat (12 # 1);
     Api.rounded_processing_time := PyFloat (12 # 1);
     Api.timestamp := PyStr "2025-01-01T00:00:00";
     Api.serialize := fun result => Return [];
     Api.validate_comprehensive_analysis := fun _ => Return tt;
     Api.service := Store.service;
     Api.unlink := fun _ => Return tt |}.

(** The record [Store.create] makes of [request] in an empty store. *)
Definition created : AnalyzedScript :=
  {| id := "0"; filename := "script.pdf"; status := "completed";
     created_at := 0; file_size_bytes := 8;
     analysis_data := PyDict [("total_scenes", PyInt 12)] |}.

End MoreSamples.

(** ** Properties of the analysis node *)

Module NodeProps.

Import Nodes Observe Conventions.

(** Turns [k ∉ [k1; ...; kn]] into the disequalities [k ≠ ki]. *)
Ltac distinct_keys H :=
  rewrite !not_elem_of_cons in H; repeat (destruct H as [? H]).

Lemma errors_well_typed_get (state : gmap string value) :
  errors_well_typed state = true ->
  dict_get state "errors" (PyList []) = PyList (recorded_errors state).
Proof.
  unfold errors_well_typed, dict_get, recorded_errors.
  destruct (state !! "errors") as [[]|]; simpl; congruence.
Qed.

(** The handler on a well-typed state: what it returns. *)
Lemma analyst_agent_except_returns (state : gmap string value) (e : exn) :
  errors_well_typed state = true ->
  analyst_agent_except state e =
    Return (<["api_calls_used" := PyInt 1]>
             (<["errors" := PyList (recorded_errors state ++ [PyStr (exn_str e)])]>
               (<["status" := PyStr ("analysis_failed: " ++ exn_str e)]> state))).
Proof.
  intros Hty. unfold analyst_agent_except.
  assert (Hget : dict_get (<["status" := PyStr ("analysis_failed: " ++ exn_str e)]> state)
                   "errors" (PyList []) = PyList (recorded_errors state)).
  { rewrite <- (errors_well_typed_get state Hty). unfold dict_get.
    by rewrite lookup_insert_ne. }
  rewrite Hget. reflexivity.
Qed.

(** The [try] body either raises or returns the state with the three
    success keys assigned. *)
Lemma analyst_agent_try_cases (m : AgentModule) (state : gmap string value)
  (pdf_path : value) :
  (exists e, analyst_agent_try m state pdf_path = Raise e) \/
  (exists data,
      analyst_agent_try m state pdf_path =
        Return (<["api_calls_used" := PyInt 2]>
                 (<["status" := PyStr "analysis_completed"]>
                   (<["comprehensive_analysis" := data]> state)))).
Proof.
  unfold analyst_agent_try.
  destruct (AnalysisContext m pdf_path) as [context|e]; simpl; [|by left; eexists].
  destruct (invoke_agent m (analysis_prompt pdf_path) context) as [result|e]; simpl.
  - right. by eexists.
  - left. by eexists.
Qed.

Lemma analysed_after_success (state : gmap string value) (data : value) :
  let state' := <["api_calls_used" := PyInt 2]>
                  (<["status" := PyStr "analysis_completed"]>
                    (<["comprehensive_analysis" := data]> state)) in
  analysed state' = true /\ failed state' = false.
Proof.
  simpl. unfold analysed, failed, api_calls_used_is, dict_contains.
  rewrite lookup_insert_eq.
  rewrite lookup_insert_ne by done. rewrite lookup_insert_ne by done.
  rewrite lookup_insert_eq. simpl. split; [done|]. apply andb_false_r.
Qed.

Lemma failed_after_failure (state : gmap string value) (l : list value) (msg status : string) :
  let state' := <["api_calls_used" := PyInt 1]>
                  (<["errors" := PyList (l ++ [PyStr msg])]>
                    (<["status" := PyStr status]> state)) in
  failed state' = true /\ analysed state' = false.
Proof.
  simpl. unfold analysed, failed, api_calls_used_is, recorded_errors.
  rewrite lookup_insert_eq.
  rewrite lookup_insert_ne by done. rewrite lookup_insert_eq. simpl.
  split; [|apply andb_false_r].
  by destruct l.
Qed.

(** On a well-typed state the node always returns a state. *)
Lemma analyst_agent_node_returns (m : AgentModule) (state : gmap string value) :
  errors_well_typed state = true ->
  exists state', analyst_agent_node m state = Return state'.
Proof.
  intros Hty. unfold analyst_agent_node.
  destruct (analyst_agent_try m state (dict_get state "pdf_path" PyNone)) as [s|e];
    simpl; [by eexists|].
  rewrite (analyst_agent_except_returns state e Hty). by eexists.
Qed.

(** C1. For every agent and every state whose [errors] entry has its
    declared type, the analysis node returns a state, and in that state
    exactly one of the two holds: [comprehensive_analysis] is present and
    [api_calls_used] is 2, or [errors] is non-empty and [api_calls_used]
    is 1. *)
Theorem analyst_agent_node_exactly_one (m : AgentModule) (state : gmap string value) :
  errors_well_typed state = true ->
  exists state',
    analyst_agent_node m state = Return state' /\
    xorb (analysed state') (failed state') = true.
Proof.
  intros Hty. unfold analyst_agent_node.
  destruct (analyst_agent_try_cases m state (dict_get state "pdf_path" PyNone))
    as [[e He]|[data Hdata]].
  - rewrite He. simpl. rewrite (analyst_agent_except_returns state e Hty).
    eexists; split; [reflexivity|].
    destruct (failed_after_failure state (recorded_errors state) (exn_str e)
                ("analysis_failed: " ++ exn_str e)) as [-> ->]. reflexivity.
  - rewrite Hdata. simpl. eexists; split; [reflexivity|].
    destruct (analysed_after_success state data) as [-> ->]. reflexivity.
Qed.

Lemma analyst_agent_node_exactly_one_witness :
  errors_well_typed Samples.initial_state = true /\
  exists state',
    analyst_agent_node Samples.run_only Samples.initial_state = Return state' /\
    xorb (analysed state') (failed state') = true.
Proof.
  split; [reflexivity|].
  apply (analyst_agent_node_exactly_one Samples.run_only Samples.initial_state).
  reflexivity.
Defined.

(** Whatever the [try] body raises, the node absorbs it into the state. *)
Lemma analyst_agent_node_absorbs (m : AgentModule) (state : gmap string value) (e : exn) :
  errors_well_typed state = true ->
  analyst_agent_try m state (dict_get state "pdf_path" PyNone) = Raise e ->
  analyst_agent_node m state =
    Return (<["api_calls_used" := PyInt 1]>
             (<["errors" := PyList (recorded_errors state ++ [PyStr (exn_str e)])]>
               (<["status" := PyStr ("analysis_failed: " ++ exn_str e)]> state))).
Proof.
  intros Hty Hraise. unfold analyst_agent_node. rewrite Hraise. simpl.
  by apply analyst_agent_except_returns.
Qed.

(** C4. For every state whose [errors] entry has its declared type and
    every exception [e] raised by the agent invocation, the analysis node
    returns a state whose [errors] is the input's errors followed by the
    message of [e], whose [status] is ['analysis_failed: '] followed by that
    message, whose [api_calls_used] is 1, and which agrees with the input
    state on every other key. *)
Theorem analyst_agent_node_failure (m : AgentModule) (state : gmap string value)
  (context : value) (e : exn) :
  errors_well_typed state = true ->
  AnalysisContext m (dict_get state "pdf_path" PyNone) = Return context ->
  invoke_agent m (analysis_prompt (dict_get state "pdf_path" PyNone)) context = Raise e ->
  exists state',
    analyst_agent_node m state = Return state' /\
    state' !! "errors" = Some (PyList (recorded_errors state ++ [PyStr (exn_str e)])) /\
    state' !! "status" = Some (PyStr ("analysis_failed: " ++ exn_str e)) /\
    state' !! "api_calls_used" = Some (PyInt 1) /\
    forall k : string, k ∉ failure_keys -> state' !! k = state !! k.
Proof.
  intros Hty Hctx Hinv.
  assert (Hraise : analyst_agent_try m state (dict_get state "pdf_path" PyNone) = Raise e).
  { unfold analyst_agent_try. rewrite Hctx. simpl. rewrite Hinv. reflexivity. }
  rewrite (analyst_agent_node_absorbs m state e Hty Hraise).
  eexists; split; [reflexivity|].
  repeat split.
  - rewrite lookup_insert_ne by done. by rewrite lookup_insert_eq.
  - do 2 (rewrite lookup_insert_ne by done). by rewrite lookup_insert_eq.
  - by rewrite lookup_insert_eq.
  - intros k Hk. unfold failure_keys in Hk. distinct_keys Hk.
    by rewrite !lookup_insert_ne.
Qed.

Lemma analyst_agent_node_failure_witness :
  exists state',
    analyst_agent_node Samples.flaky Samples.initial_state = Return state' /\
    state' !! "errors" = Some (PyList [PyStr "extraction failed: corrupt PDF"]) /\
    state' !! "status" =
      Some (PyStr "analysis_failed: extraction failed: corrupt PDF") /\
    state' !! "api_calls_used" = Some (PyInt 1) /\
    forall k : string, k ∉ failure_keys -> state' !! k = Samples.initial_state !! k.
Proof.
  apply (analyst_agent_node_failure Samples.flaky Samples.initial_state
           Samples.context Samples.corrupt_pdf);
    reflexivity.
Defined.

(** Outside the declared type: with [errors] set to [None], the handler
    itself raises when the agent fails, and the node returns no state. *)
Example ill_typed_errors_raise :
  analyst_agent_node Samples.flaky (<["errors" := PyNone]> Samples.initial_state)
    = Raise (MkExn TypeError
               "unsupported operand type(s) for +: 'NoneType' and 'list'").
Proof. reflexivity. Qed.

(** *** The call conventions *)

(** C6, as stated, fails: the agent [Samples.flaky] has a [run_async] that
    raises an exception other than [AttributeError] and a [run] that
    succeeds; the first convention that succeeds is [run], and the adapter
    ends with the exception of [run_async] instead. *)
Lemma first_success_not_used :
  first_convention_that_succeeds Samples.flaky Samples.prompt Samples.context
    = Some Samples.analysis /\
  invoke_agent Samples.flaky Samples.prompt Samples.context
    = Raise Samples.corrupt_pdf.
Proof. split; reflexivity. Qed.

(** C6, amended. The adapter tries [run_async], then [run], then the direct
    call, in that order, and moves on to the next convention only when the
    one before raises [AttributeError]: its outcome is the outcome of the
    first convention that does not raise [AttributeError], and the outcome
    of the direct call when both methods do. *)
Theorem invoke_agent_fallback (m : AgentModule) (prompt : list fpart) (context : value) :
  (falls_through (run_async m prompt context) = false ->
   invoke_agent m prompt context = run_async m prompt context) /\
  (falls_through (run_async m prompt context) = true ->
   falls_through (run m prompt context) = false ->
   invoke_agent m prompt context = run m prompt context) /\
  (falls_through (run_async m prompt context) = true ->
   falls_through (run m prompt context) = true ->
   invoke_agent m prompt context = call m prompt context).
Proof.
  unfold invoke_agent, try_except_AttributeError, falls_through.
  destruct (run_async m prompt context) as [r1|e1];
    [|destruct (is_attribute_error e1)];
    (destruct (run m prompt context) as [r2|e2];
       [|destruct (is_attribute_error e2)]);
    repeat split; intros; congruence.
Qed.

Lemma invoke_agent_fallback_witness :
  invoke_agent Samples.flaky Samples.prompt Samples.context
    = Raise Samples.corrupt_pdf /\
  invoke_agent Samples.run_only Samples.prompt Samples.context
    = Return Samples.analysis.
Proof.
  split.
  - apply (proj1 (invoke_agent_fallback Samples.flaky Samples.prompt Samples.context)).
    reflexivity.
  - apply (proj1 (proj2 (invoke_agent_fallback Samples.run_only Samples.prompt
                           Samples.context)));
      reflexivity.
Defined.

(** When the adapter returns a result, a convention returned it and every
    convention before that one raised [AttributeError]. *)
Lemma invoke_agent_returns (m : AgentModule) (prompt : list fpart) (context r : value) :
  invoke_agent m prompt context = Return r ->
  run_async m prompt context = Return r \/
  (falls_through (run_async m prompt context) = true /\
   (run m prompt context = Return r \/
    (falls_through (run m prompt context) = true /\
     call m prompt context = Return r))).
Proof.
  unfold invoke_agent, try_except_AttributeError, falls_through.
  destruct (run_async m prompt context) as [r1|e1]; [by left|].
  destruct (is_attribute_error e1); [|discriminate].
  destruct (run m prompt context) as [r2|e2]; [by right; split; [|left]|].
  destruct (is_attribute_error e2); [|discriminate].
  intros ->. right. split; [done|]. right. by split.
Qed.

(** *** The feedback node *)

Lemma human_feedback_node_status (state : gmap string value) :
  human_feedback_node state !! "status" = Some (PyStr "analysis_completed").
Proof. unfold human_feedback_node. by rewrite lookup_insert_eq. Qed.

Lemma human_feedback_node_feedback_required (state : gmap string value) :
  human_feedback_node state !! "feedback_required" = Some (PyBool false).
Proof.
  unfold human_feedback_node.
  rewrite lookup_insert_ne by done. by rewrite lookup_insert_eq.
Qed.

(** Every key other than the two the feedback node assigns and the one it
    defaults keeps its entry. *)
Lemma human_feedback_node_other_keys (state : gmap string value) (k : string) :
  k ∉ ["status"; "feedback_required"; "feedback_text"] ->
  human_feedback_node state !! k = state !! k.
Proof.
  intros Hk. distinct_keys Hk. unfold human_feedback_node, dict_contains.
  rewrite !lookup_insert_ne by done.
  destruct (state !! "feedback_required").
  - destruct (state !! "feedback_text"); [done|].
    by rewrite lookup_insert_ne.
  - destruct (<["feedback_required" := PyBool false]> state !! "feedback_text");
      by rewrite !lookup_insert_ne.
Qed.

(** C10. For every input state, the state the feedback node returns has
    [status] equal to ['analysis_completed'] and [feedback_required] false,
    and its [errors] entry is the input's: after a failed analysis the
    status reports completion while the recorded errors stay. *)
Theorem human_feedback_node_reports_completed (state : gmap string value) :
  human_feedback_node state !! "status" = Some (PyStr "analysis_completed") /\
  human_feedback_node state !! "feedback_required" = Some (PyBool false) /\
  human_feedback_node state !! "errors" = state !! "errors".
Proof.
  split; [apply human_feedback_node_status|].
  split; [apply human_feedback_node_feedback_required|].
  apply human_feedback_node_other_keys.
  rewrite !not_elem_of_cons. repeat split; (done || apply not_elem_of_nil).
Qed.

(** The feedback node after the failed analysis of [Samples.flaky]. *)
Example completed_with_errors :
  exists failed_state,
    analyst_agent_node Samples.flaky Samples.initial_state = Return failed_state /\
    failed_state !! "status"
      = Some (PyStr "analysis_failed: extraction failed: corrupt PDF") /\
    human_feedback_node failed_state !! "status" = Some (PyStr "analysis_completed") /\
    human_feedback_node failed_state !! "errors"
      = Some (PyList [PyStr "extraction failed: corrupt PDF"]).
Proof.
  eexists. split; [reflexivity|]. split; [reflexivity|].
  split; [apply human_feedback_node_status|].
  etrans; [apply human_feedback_node_other_keys|reflexivity].
  rewrite !not_elem_of_cons. repeat split; (done || apply not_elem_of_nil).
Qed.

End NodeProps.

(** ** Properties of the routing predicate and of the graph *)

Module WorkflowProps.

Import Nodes Workflow Observe.

(** The routing predicate depends on the truth value of
    [feedback_required] alone. *)
Lemma should_continue_or_end_spec (state : gmap string value) :
  should_continue_or_end state =
    if truthy (default (PyBool false) (state !! "feedback_required"))
    then "unified_analysis" else "END".
Proof. reflexivity. Qed.

(** C5. The routing predicate returns one of its two outcomes on every
    state, returns ["END"] when the state has no [feedback_required] key,
    and returns the same outcome on any two states with the same
    [feedback_required] entry (so also on the same state twice). *)
Theorem should_continue_or_end_total_pure :
  (forall state : gmap string value,
      should_continue_or_end state = "unified_analysis" \/
      should_continue_or_end state = "END") /\
  (forall state : gmap string value,
      state !! "feedback_required" = None ->
      should_continue_or_end state = "END") /\
  (forall state1 state2 : gmap string value,
      state1 !! "feedback_required" = state2 !! "feedback_required" ->
      should_continue_or_end state1 = should_continue_or_end state2).
Proof.
  repeat split.
  - intros state. rewrite should_continue_or_end_spec.
    destruct (truthy _); [by left | by right].
  - intros state Hnone. rewrite should_continue_or_end_spec, Hnone. reflexivity.
  - intros state1 state2 Heq. rewrite !should_continue_or_end_spec, Heq. reflexivity.
Qed.

Lemma should_continue_or_end_total_pure_witness :
  should_continue_or_end Samples.initial_state = "END" /\
  should_continue_or_end Samples.initial_state = should_continue_or_end ∅.
Proof.
  split.
  - apply (proj1 (proj2 should_continue_or_end_total_pure) Samples.initial_state).
    reflexivity.
  - apply (proj2 (proj2 should_continue_or_end_total_pure) Samples.initial_state ∅).
    reflexivity.
Defined.

(** *** The graph of [create_workflow] *)

Lemma entry_point_create_workflow (m : AgentModule) :
  entry_point (create_workflow m) = Some "analyst_agent".
Proof. reflexivity. Qed.

Lemma nodes_analyst_agent (m : AgentModule) :
  nodes (create_workflow m) !! "analyst_agent" = Some (analyst_agent_node m).
Proof. simpl. rewrite lookup_insert_ne by done. by rewrite lookup_insert_eq. Qed.

Lemma nodes_human_feedback (m : AgentModule) :
  nodes (create_workflow m) !! "human_feedback"
    = Some (fun state => Return (human_feedback_node state)).
Proof. simpl. by rewrite lookup_insert_eq. Qed.

Lemma next_node_analyst_agent (m : AgentModule) (state : gmap string value) :
  next_node (create_workflow m) "analyst_agent" state = Goto "human_feedback".
Proof.
  unfold next_node. simpl.
  rewrite lookup_insert_ne by done. rewrite lookup_empty.
  by rewrite lookup_insert_eq.
Qed.

(** The registered routes are ["END"] and ["analyst_agent"]. *)
Lemma path_map_lookup (route : string) :
  path_map !! route =
    if decide (route = "analyst_agent") then Some "analyst_agent"
    else if decide (route = "END") then Some END else None.
Proof.
  unfold path_map. repeat case_decide; subst; simplify_map_eq; done.
Qed.

(** After the feedback node: the graph stops when [feedback_required] is
    false or absent, and the route is not among the registered ones when it
    is true. *)
Lemma next_node_human_feedback (m : AgentModule) (state : gmap string value) :
  next_node (create_workflow m) "human_feedback" state =
    if truthy (dict_get state "feedback_required" (PyBool false))
    then RouteKeyError "unified_analysis" else Stop.
Proof.
  unfold next_node. simpl. rewrite lookup_insert_eq.
  unfold should_continue_or_end.
  destruct (truthy _); rewrite path_map_lookup; reflexivity.
Qed.

(** C3, on the code: in a state whose [feedback_required] is true the
    routing predicate returns ["unified_analysis"], which the mapping given to
    [add_conditional_edges] does not have, so the run does not go back to
    [analyst_agent]: the lookup of the route fails. *)
Theorem loop_back_route_unregistered (m : AgentModule) :
  Samples.looping_state !! "feedback_required" = Some (PyBool true) /\
  should_continue_or_end Samples.looping_state = "unified_analysis" /\
  path_map !! "unified_analysis" = None /\
  next_node (create_workflow m) "human_feedback" Samples.looping_state
    = RouteKeyError "unified_analysis".
Proof.
  split; [reflexivity|]. split; [reflexivity|]. split; [reflexivity|].
  rewrite next_node_human_feedback. reflexivity.
Qed.

(** The other half of the routing: false or absent ends the run. *)
Lemma next_node_human_feedback_stop (m : AgentModule) (state : gmap string value) :
  truthy (dict_get state "feedback_required" (PyBool false)) = false ->
  next_node (create_workflow m) "human_feedback" state = Stop.
Proof. intros H. by rewrite next_node_human_feedback, H. Qed.

(** Writing the state a node returns over the state it was given. *)
Lemma merged_lookup (update state : gmap string value) (k : string) (v : value) :
  update !! k = Some v -> (update ∪ state) !! k = Some v.
Proof. intros H. by apply lookup_union_Some_l. Qed.

(** *** The state schema *)

Lemma restrict_lookup (schema : list string) (m : gmap string value) (k : string) :
  restrict schema m !! k = if decide (k ∈ schema) then m !! k else None.
Proof.
  unfold restrict. apply option_eq. intros v.
  rewrite map_lookup_filter_Some. simpl.
  destruct (decide (k ∈ schema)) as [Hk|Hk]; split;
    [by intros [? _] | by intros ? | by intros [_ ?] | done].
Qed.

Lemma restrict_lookup_in (schema : list string) (m : gmap string value) (k : string) :
  k ∈ schema -> restrict schema m !! k = m !! k.
Proof. intros Hk. rewrite restrict_lookup. by destruct (decide (k ∈ schema)). Qed.

Lemma schema_create_workflow (m : AgentModule) :
  state_schema (create_workflow m) = OptimizedWorkflowState.
Proof. reflexivity. Qed.

(** The keys of the schema, one by one. *)
Lemma in_schema (k : string) :
  k ∈ OptimizedWorkflowState <->
  k = "pdf_path" \/ k = "status" \/ k = "comprehensive_analysis" \/ k = "errors" \/
  k = "api_calls_used" \/ k = "feedback_required" \/ k = "feedback_text".
Proof.
  unfold OptimizedWorkflowState. rewrite !elem_of_cons, elem_of_nil. tauto.
Qed.

(** The state the nodes of a run start from has the typing of the input. *)
Lemma restrict_errors_well_typed (state : gmap string value) :
  errors_well_typed state = true ->
  errors_well_typed (restrict OptimizedWorkflowState state) = true.
Proof.
  unfold errors_well_typed. rewrite restrict_lookup_in; [done|].
  apply in_schema. tauto.
Qed.

(** The state after the feedback node has [feedback_required] false. *)
Lemma feedback_required_after (state1 : gmap string value) :
  (restrict OptimizedWorkflowState (human_feedback_node state1) ∪ state1)
    !! "feedback_required" = Some (PyBool false).
Proof.
  apply merged_lookup.
  rewrite restrict_lookup_in by (apply in_schema; tauto).
  apply NodeProps.human_feedback_node_feedback_required.
Qed.

(** What a run of the graph of [create_workflow] is, for any limit of at
    least three: the analysis node, then the feedback node, then the end,
    unless the analysis node itself raises. *)
Lemma invoke_create_workflow (m : AgentModule) (state : gmap string value)
  (limit : nat) :
  invoke (create_workflow m) (S (S (S limit))) state =
    let state0 := restrict OptimizedWorkflowState state in
    match analyst_agent_node m state0 with
    | Raise e => NodeRaised ["analyst_agent"] e
    | Return update1 =>
        let state1 := restrict OptimizedWorkflowState update1 ∪ state0 in
        Finished ["analyst_agent"; "human_feedback"]
          (restrict OptimizedWorkflowState (human_feedback_node state1) ∪ state1)
    end.
Proof.
  unfold invoke. rewrite entry_point_create_workflow, schema_create_workflow.
  cbn [run_from]. rewrite nodes_analyst_agent. cbn zeta.
  destruct (analyst_agent_node m _) as [update1|e]; [|reflexivity].
  rewrite ?schema_create_workflow, next_node_analyst_agent. cbn [run_from].
  rewrite nodes_human_feedback, ?schema_create_workflow.
  set (state1 := restrict OptimizedWorkflowState update1 ∪ _).
  rewrite next_node_human_feedback_stop; [reflexivity|].
  unfold dict_get. by rewrite (feedback_required_after state1).
Qed.

(** With a limit of two both nodes run, and the run then raises: the check
    that nothing is left to run has no step left. *)
Lemma invoke_create_workflow_two (m : AgentModule) (state : gmap string value) :
  invoke (create_workflow m) 2 state =
    let state0 := restrict OptimizedWorkflowState state in
    match analyst_agent_node m state0 with
    | Raise e => NodeRaised ["analyst_agent"] e
    | Return update1 =>
        let state1 := restrict OptimizedWorkflowState update1 ∪ state0 in
        GraphRecursionError ["analyst_agent"; "human_feedback"]
          (restrict OptimizedWorkflowState (human_feedback_node state1) ∪ state1)
    end.
Proof.
  unfold invoke. rewrite entry_point_create_workflow, schema_create_workflow.
  cbn [run_from]. rewrite nodes_analyst_agent. cbn zeta.
  destruct (analyst_agent_node m _) as [update1|e]; [|reflexivity].
  rewrite ?schema_create_workflow, next_node_analyst_agent. cbn [run_from].
  rewrite nodes_human_feedback, ?schema_create_workflow.
  set (state1 := restrict OptimizedWorkflowState update1 ∪ _).
  rewrite next_node_human_feedback_stop; [reflexivity|].
  unfold dict_get. by rewrite (feedback_required_after state1).
Qed.

(** No run of the graph exhausts a recursion limit of three or more. *)
Lemma workflow_never_loops (m : AgentModule) (state : gmap string value)
  (recursion_limit : nat) :
  3 <= recursion_limit ->
  forall visited state',
    invoke (create_workflow m) recursion_limit state
      <> GraphRecursionError visited state'.
Proof.
  intros Hlimit visited state'.
  destruct recursion_limit as [|[|[|limit]]]; [lia..|].
  rewrite invoke_create_workflow. cbn zeta.
  destruct (analyst_agent_node m _); discriminate.
Qed.

(** C2. For every agent, every initial state whose [errors] entry has its
    declared type and every recursion limit of at least three (the default
    is 25), the run of the workflow graph finishes after exactly one
    execution of [analyst_agent] followed by one of [human_feedback], in a
    state whose [feedback_required] is false. *)
Theorem workflow_terminates_after_one_pass (m : AgentModule)
  (state : gmap string value) (recursion_limit : nat) :
  errors_well_typed state = true ->
  3 <= recursion_limit ->
  exists final,
    invoke (create_workflow m) recursion_limit state
      = Finished ["analyst_agent"; "human_feedback"] final /\
    final !! "feedback_required" = Some (PyBool false).
Proof.
  intros Hty Hlimit.
  destruct recursion_limit as [|[|[|limit]]]; [lia..|].
  destruct (NodeProps.analyst_agent_node_returns m
              (restrict OptimizedWorkflowState state)
              (restrict_errors_well_typed state Hty)) as [update1 Hnode].
  rewrite invoke_create_workflow. cbn zeta. rewrite Hnode.
  eexists. split; [reflexivity|]. apply feedback_required_after.
Qed.

Lemma workflow_terminates_after_one_pass_witness :
  errors_well_typed Samples.initial_state = true /\
  3 <= default_recursion_limit /\
  exists final,
    invoke (create_workflow Samples.flaky) default_recursion_limit Samples.initial_state
      = Finished ["analyst_agent"; "human_feedback"] final /\
    final !! "feedback_required" = Some (PyBool false).
Proof.
  split; [reflexivity|]. split; [unfold default_recursion_limit; lia|].
  apply (workflow_terminates_after_one_pass Samples.flaky Samples.initial_state
           default_recursion_limit).
  - reflexivity.
  - unfold default_recursion_limit; lia.
Defined.

(** The same run with a limit of two: both nodes run and the limit is hit. *)
Example limit_of_two_is_hit :
  exists state,
    invoke (create_workflow Samples.flaky) 2 Samples.initial_state
      = GraphRecursionError ["analyst_agent"; "human_feedback"] state.
Proof. eexists. vm_compute. reflexivity. Qed.

End WorkflowProps.

(** ** Properties of the endpoints *)

Module ApiProps.

Import AnalyzedScriptService Api.

Local Open Scope Z_scope.

(** An analysis that ends within the timeout is what [timed_analysis]
    gives. *)
Lemma timed_analysis_in_time (env : Env) (path : string) (duration : Z)
  (result : gmap string value) :
  run_optimized_script_analysis env path = (duration, Return result) ->
  duration <= 300 ->
  timed_analysis env path = Return result.
Proof.
  intros Hrun Hle. unfold timed_analysis, wait_for. rewrite Hrun. simpl.
  destruct (300 <? duration) eqn:Hlt; [apply Z.ltb_lt in Hlt; lia | reflexivity].
Qed.

(** An analysis that takes longer than the timeout becomes the 408 error,
    however it would have ended. *)
Lemma timed_analysis_too_long (env : Env) (path : string) (duration : Z)
  (o : outcome (gmap string value)) :
  run_optimized_script_analysis env path = (duration, o) ->
  300 < duration ->
  timed_analysis env path =
    Raise (http_exception 408 "Analysis timed out. Please try with a smaller script.").
Proof.
  intros Hrun Hlt. unfold timed_analysis, wait_for. rewrite Hrun. simpl.
  apply Z.ltb_lt in Hlt. rewrite Hlt. reflexivity.
Qed.

(** The request up to the analysis: the file is valid and has been
    written. *)
Lemma analyze_script_after_upload (env : Env) (file : UploadFile) (save_to_db : bool)
  (w : World) (content : string) (file_size : Z) :
  validate_file env file = Return tt ->
  read env file = Return content ->
  validate_file_size env content = Return file_size ->
  analyze_script env file save_to_db w =
    let r := analyze_script_try env file save_to_db file_size (temp_file_name env) (db w) in
    (analyze_script_except (fst r),
     {| db := snd r;
        temp_files := cleanup (unlink env) (Some (temp_file_name env))
                        (temp_file_name env :: temp_files w) |}).
Proof.
  intros Hvalid Hread Hsize. unfold analyze_script.
  rewrite Hvalid, Hread. simpl. rewrite Hsize. reflexivity.
Qed.

(** A body renders exactly when each of its values is serializable. *)
Lemma renders_spec (content : gmap string value) :
  renders content = true <->
  map_Forall (fun _ v => json_serializable v = true) content.
Proof.
  unfold renders. rewrite forallb_forall. split.
  - intros H k v Hkv. apply (H (k, v)).
    by apply list_elem_of_In, elem_of_map_to_list.
  - intros H [k v] Hin. apply (H k v).
    by apply elem_of_map_to_list, list_elem_of_In.
Qed.

(** Adding a serializable value to a body that renders. *)
Lemma renders_insert (content : gmap string value) (k : string) (v : value) :
  json_serializable v = true ->
  renders content = true ->
  renders (<[k := v]> content) = true.
Proof.
  rewrite !renders_spec. intros Hv Hcontent. by apply map_Forall_insert_2.
Qed.

Lemma json_response_renders (code : Z) (content : gmap string value) :
  renders content = true ->
  json_response code content = Return {| status_code := code; content := content |}.
Proof. intros H. unfold json_response. by rewrite H. Qed.

Lemma response_data_success (env : Env) (file : UploadFile) (file_size : Z)
  (result : gmap string value) (clean_result : list (string * value)) :
  response_data env file file_size result clean_result !! "success" = Some (PyBool true).
Proof.
  unfold response_data. rewrite !lookup_insert_ne by done. by rewrite lookup_insert_eq.
Qed.

Lemma response_data_data (env : Env) (file : UploadFile) (file_size : Z)
  (result : gmap string value) (clean_result : list (string * value)) :
  response_data env file file_size result clean_result !! "data"
    = Some (default (PyDict clean_result) (assoc "data" clean_result)).
Proof. unfold response_data. by rewrite lookup_insert_eq. Qed.

Lemma response_data_no_database_id (env : Env) (file : UploadFile) (file_size : Z)
  (result : gmap string value) (clean_result : list (string * value)) :
  response_data env file file_size result clean_result !! "database_id" = None.
Proof.
  unfold response_data. rewrite !lookup_insert_ne by done. apply lookup_empty.
Qed.

(** C7. When the upload is valid, the analysis ends within the timeout,
    its result serializes, the response data render as JSON, and the save
    raises [db_error], the endpoint returns a response with status 200
    whose body has [success] true, the analysis under [data], the message
    of [db_error] under [database_error], and no [database_id]; nothing is
    raised. *)
Theorem analyze_script_save_failure_not_fatal (env : Env) (file : UploadFile)
  (w : World) (content : string) (file_size duration : Z)
  (result : gmap string value) (clean_result : list (string * value))
  (db_error : exn) :
  validate_file env file = Return tt ->
  read env file = Return content ->
  validate_file_size env content = Return file_size ->
  run_optimized_script_analysis env (temp_file_name env) = (duration, Return result) ->
  duration <= 300 ->
  serialize env result = Return clean_result ->
  renders (response_data env file file_size result clean_result) = true ->
  fst (create_analyzed_script (service env) (db w)
         (new_script env file file_size result clean_result)) = Raise db_error ->
  exists body,
    fst (analyze_script env file true w)
      = Return {| status_code := 200; content := body |} /\
    body !! "database_error" = Some (PyStr (exn_str db_error)) /\
    body !! "success" = Some (PyBool true) /\
    body !! "data" = Some (default (PyDict clean_result) (assoc "data" clean_result)) /\
    body !! "database_id" = None.
Proof.
  intros Hvalid Hread Hsize Hrun Hle Hser Hrenders Hsave.
  rewrite (analyze_script_after_upload env file true w content file_size Hvalid Hread Hsize).
  cbn zeta. cbn [fst]. unfold analyze_script_try.
  rewrite (timed_analysis_in_time env _ duration result Hrun Hle), Hser.
  cbn [fst]. unfold save_analysis. rewrite Hsave. cbn [fst].
  rewrite json_response_renders by (by apply renders_insert).
  cbn [analyze_script_except].
  eexists. split; [reflexivity|].
  split; [by rewrite lookup_insert_eq|].
  rewrite !lookup_insert_ne by done.
  split; [apply response_data_success|].
  split; [apply response_data_data | apply response_data_no_database_id].
Qed.

Lemma analyze_script_save_failure_not_fatal_witness :
  exists body,
    fst (analyze_script (Samples.env 12 Samples.unreachable) Samples.upload true
           Samples.world)
      = Return {| status_code := 200; content := body |} /\
    body !! "database_error" = Some (PyStr "connection refused") /\
    body !! "success" = Some (PyBool true) /\
    body !! "data" = Some (PyDict [("total_scenes", PyInt 12)]) /\
    body !! "database_id" = None.
Proof.
  apply (analyze_script_save_failure_not_fatal
           (Samples.env 12 Samples.unreachable) Samples.upload Samples.world
           "%PDF-1.4" 8 12 Samples.finished_state
           [("data", PyDict [("total_scenes", PyInt 12)])]
           (MkExn OtherException "connection refused"));
    first [reflexivity | lia].
Defined.

(** C8. When the upload is valid and the analysis takes longer than 300
    time units, the endpoint raises the [HTTPException] with status 408,
    whether or not saving was asked for, and the stored records are those
    before the request. *)
Theorem analyze_script_timeout (env : Env) (file : UploadFile) (save_to_db : bool)
  (w : World) (content : string) (file_size duration : Z)
  (o : outcome (gmap string value)) :
  validate_file env file = Return tt ->
  read env file = Return content ->
  validate_file_size env content = Return file_size ->
  run_optimized_script_analysis env (temp_file_name env) = (duration, o) ->
  300 < duration ->
  fst (analyze_script env file save_to_db w)
    = Raise (MkExn (HTTPException 408
                      "Analysis timed out. Please try with a smaller script.")
               "408: Analysis timed out. Please try with a smaller script.") /\
  db (snd (analyze_script env file save_to_db w)) = db w.
Proof.
  intros Hvalid Hread Hsize Hrun Hlt.
  rewrite (analyze_script_after_upload env file save_to_db w content file_size
             Hvalid Hread Hsize).
  cbn zeta. unfold analyze_script_try.
  rewrite (timed_analysis_too_long env _ duration o Hrun Hlt).
  split; reflexivity.
Qed.

Lemma analyze_script_timeout_witness :
  fst (analyze_script (Samples.env 301 Store.service) Samples.upload true Samples.world)
    = Raise (MkExn (HTTPException 408
                      "Analysis timed out. Please try with a smaller script.")
               "408: Analysis timed out. Please try with a smaller script.") /\
  db (snd (analyze_script (Samples.env 301 Store.service) Samples.upload true
             Samples.world)) = [].
Proof.
  apply (analyze_script_timeout (Samples.env 301 Store.service) Samples.upload true
           Samples.world "%PDF-1.4" 8 301 (Return Samples.finished_state));
    first [reflexivity | lia].
Defined.

(** The same request within the timeout is saved: the store gets a record. *)
Example analyze_script_in_time_saves :
  length (db (snd (analyze_script (Samples.env 12 Store.service) Samples.upload true
                     Samples.world))) = 1%nat.
Proof. reflexivity. Qed.

(** *** Listing *)

(** The page built from no scripts and a total of zero. *)
Lemma page_of_nothing (svc : Service) (skip limit : Z) (search : option string) :
  0 <= skip ->
  page svc skip limit search [] 0 !! "data" = Some (PyList []) /\
  page svc skip limit search [] 0 !! "pagination"
    = Some (PyDict [ ("total", PyInt 0); ("skip", PyInt skip); ("limit", PyInt limit);
                     ("returned", PyInt 0); ("has_more", PyBool false) ]).
Proof.
  intros Hskip. unfold page. split.
  - do 2 (rewrite lookup_insert_ne by done). by rewrite lookup_insert_eq.
  - rewrite lookup_insert_ne by done. rewrite lookup_insert_eq.
    unfold len. simpl. rewrite Z.add_0_r.
    destruct (skip <? 0) eqn:H; [apply Z.ltb_lt in H; lia | reflexivity].
Qed.

(** On the empty store every selection is empty with a total of zero. *)
Lemma select_scripts_empty (skip limit : Z) (order_by order_direction : string)
  (status_filter search : option string) :
  select_scripts Store.service skip limit order_by order_direction
    status_filter search [] = Return ([], 0).
Proof.
  unfold select_scripts.
  destruct (given search) as [term|].
  - simpl. unfold Store.paginate. simpl.
    by rewrite drop_nil, take_nil.
  - destruct (given status_filter) as [wanted|]; simpl;
      unfold Store.paginate, Store.order_scripts; simpl.
    + by rewrite drop_nil, take_nil.
    + destruct (String.eqb order_direction "desc"); simpl;
        by rewrite drop_nil, take_nil.
Qed.

(** C9. On the empty store, listing with [skip = 0] and [limit = 10]
    returns, for every ordering, status filter and search term, a page
    whose [data] is the empty list and whose pagination has [total] 0 and
    [has_more] false. *)
Theorem listing_empty_store (order_by order_direction : string)
  (status_filter search : option string) :
  exists body,
    get_all_analyzed_scripts Store.service 0 10 order_by order_direction
      status_filter search [] = Return body /\
    body !! "data" = Some (PyList []) /\
    body !! "pagination"
      = Some (PyDict [ ("total", PyInt 0); ("skip", PyInt 0); ("limit", PyInt 10);
                       ("returned", PyInt 0); ("has_more", PyBool false) ]).
Proof.
  unfold get_all_analyzed_scripts. rewrite select_scripts_empty. simpl.
  eexists. split; [reflexivity|].
  apply (page_of_nothing Store.service 0 10 search). lia.
Qed.

End ApiProps.

(** ** Further properties of the nodes *)

Module NodeExtras.

Import Nodes Observe Shapes.

Ltac distinct H :=
  rewrite !not_elem_of_cons in H; repeat (destruct H as [? H]).

(** Whenever the analysis node returns, the state it returns is one of the
    two shapes. *)
Lemma analyst_agent_node_shape (m : AgentModule) (state state' : gmap string value) :
  analyst_agent_node m state = Return state' ->
  (exists data, state' = succeeded state data) \/
  (exists l msg, dict_get state "errors" (PyList []) = PyList l /\
                 state' = absorbed state l msg).
Proof.
  unfold analyst_agent_node.
  destruct (NodeProps.analyst_agent_try_cases m state (dict_get state "pdf_path" PyNone))
    as [[e He]|[data Hdata]].
  - rewrite He. simpl. unfold analyst_agent_except.
    assert (Hget : dict_get (<["status" := PyStr ("analysis_failed: " ++ exn_str e)]> state)
                     "errors" (PyList []) = dict_get state "errors" (PyList [])).
    { unfold dict_get. by rewrite lookup_insert_ne. }
    rewrite Hget.
    destruct (dict_get state "errors" (PyList [])) as [| | | | |l| |]; simpl;
      try discriminate.
    intros [= <-]. right. by exists l, (exn_str e).
  - rewrite Hdata. simpl. intros [= <-]. left. by exists data.
Qed.

(** X1. When the context is built and the agent invocation returns
    [result], the analysis node returns a state whose
    [comprehensive_analysis] is the payload of [result], whose [status] is
    ['analysis_completed'], whose [api_calls_used] is 2, and which agrees
    with the input state on every other key (the [errors] recorded before
    stay). *)
Theorem analyst_agent_node_success (m : AgentModule) (state : gmap string value)
  (context result : value) :
  AnalysisContext m (dict_get state "pdf_path" PyNone) = Return context ->
  invoke_agent m (analysis_prompt (dict_get state "pdf_path" PyNone)) context
    = Return result ->
  exists state',
    analyst_agent_node m state = Return state' /\
    state' !! "comprehensive_analysis" = Some (extract_analysis_data result) /\
    state' !! "status" = Some (PyStr "analysis_completed") /\
    state' !! "api_calls_used" = Some (PyInt 2) /\
    forall k : string, k ∉ success_keys -> state' !! k = state !! k.
Proof.
  intros Hctx Hinv. unfold analyst_agent_node, analyst_agent_try.
  rewrite Hctx. simpl. rewrite Hinv. simpl.
  eexists. split; [reflexivity|]. repeat split.
  - do 2 (rewrite lookup_insert_ne by done). by rewrite lookup_insert_eq.
  - rewrite lookup_insert_ne by done. by rewrite lookup_insert_eq.
  - by rewrite lookup_insert_eq.
  - intros k Hk. unfold success_keys in Hk. distinct Hk.
    by rewrite !lookup_insert_ne.
Qed.

Lemma analyst_agent_node_success_witness :
  exists state',
    analyst_agent_node Samples.run_only Samples.initial_state = Return state' /\
    state' !! "comprehensive_analysis" = Some (PyDict [("total_scenes", PyInt 12)]) /\
    state' !! "status" = Some (PyStr "analysis_completed") /\
    state' !! "api_calls_used" = Some (PyInt 2) /\
    forall k : string, k ∉ success_keys -> state' !! k = Samples.initial_state !! k.
Proof.
  apply (analyst_agent_node_success Samples.run_only Samples.initial_state
           Samples.context Samples.analysis); reflexivity.
Defined.

(** X2. Whenever the analysis node returns, on a state whose [errors]
    entry is a list when present, the errors recorded before are a prefix of
    the errors recorded after, and the [errors] entry of the returned state
    is again a list when present: no run of the node removes or reorders a
    recorded error. *)
Theorem analyst_agent_node_errors_grow (m : AgentModule)
  (state state' : gmap string value) :
  errors_well_typed state = true ->
  analyst_agent_node m state = Return state' ->
  recorded_errors state `prefix_of` recorded_errors state' /\
  errors_well_typed state' = true.
Proof.
  intros Hty Hnode.
  destruct (analyst_agent_node_shape m state state' Hnode)
    as [[data ->]|(l & msg & Hl & ->)].
  - unfold succeeded, recorded_errors, errors_well_typed.
    rewrite !lookup_insert_ne by done. split; [done|exact Hty].
  - rewrite (NodeProps.errors_well_typed_get state Hty) in Hl.
    injection Hl as <-.
    unfold absorbed, errors_well_typed.
    rewrite lookup_insert_ne by done. rewrite lookup_insert_eq. split; [|done].
    unfold recorded_errors at 2.
    rewrite lookup_insert_ne by done. rewrite lookup_insert_eq.
    by apply prefix_app_r.
Qed.

Lemma analyst_agent_node_errors_grow_witness :
  recorded_errors Samples.initial_state `prefix_of`
    recorded_errors
      (absorbed Samples.initial_state [] "extraction failed: corrupt PDF") /\
  errors_well_typed
    (absorbed Samples.initial_state [] "extraction failed: corrupt PDF") = true.
Proof.
  apply (analyst_agent_node_errors_grow Samples.flaky Samples.initial_state);
    reflexivity.
Defined.

(** X3. When the construction of the context raises [e], the analysis node
    records [e] as it records a failure of the agent, and the state it
    returns is the same for every agent with that context constructor: no
    call convention is tried. *)
Theorem analyst_agent_node_context_failure (m : AgentModule)
  (state : gmap string value) (e : exn) :
  errors_well_typed state = true ->
  AnalysisContext m (dict_get state "pdf_path" PyNone) = Raise e ->
  analyst_agent_node m state
    = Return (absorbed state (recorded_errors state) (exn_str e)) /\
  forall m' : AgentModule,
    AnalysisContext m' (dict_get state "pdf_path" PyNone) = Raise e ->
    analyst_agent_node m' state = analyst_agent_node m state.
Proof.
  intros Hty Hctx.
  assert (Hall : forall m0 : AgentModule,
             AnalysisContext m0 (dict_get state "pdf_path" PyNone) = Raise e ->
             analyst_agent_node m0 state
               = Return (absorbed state (recorded_errors state) (exn_str e))).
  { intros m0 H0. apply NodeProps.analyst_agent_node_absorbs; [exact Hty|].
    unfold analyst_agent_try. by rewrite H0. }
  split; [by apply Hall|].
  intros m' Hctx'. by rewrite (Hall m' Hctx'), (Hall m Hctx).
Qed.

Lemma analyst_agent_node_context_failure_witness :
  analyst_agent_node MoreSamples.no_context Samples.initial_state
    = Return (absorbed Samples.initial_state []
                "validation error for AnalysisContext") /\
  forall m' : AgentModule,
    AnalysisContext m' (dict_get Samples.initial_state "pdf_path" PyNone)
      = Raise (MkExn OtherException "validation error for AnalysisContext") ->
    analyst_agent_node m' Samples.initial_state
      = analyst_agent_node MoreSamples.no_context Samples.initial_state.
Proof.
  apply (analyst_agent_node_context_failure MoreSamples.no_context
           Samples.initial_state
           (MkExn OtherException "validation error for AnalysisContext"));
    reflexivity.
Defined.

Lemma analyst_agent_node_keeps_keys (m : AgentModule)
  (state state' : gmap string value) (k : string) :
  analyst_agent_node m state = Return state' ->
  is_Some (state !! k) -> is_Some (state' !! k).
Proof.
  intros Hnode Hk.
  destruct (analyst_agent_node_shape m state state' Hnode)
    as [[data ->]|(l & msg & _ & ->)];
    unfold succeeded, absorbed; rewrite !lookup_insert_is_Some'; tauto.
Qed.

Lemma human_feedback_node_keeps_keys (state : gmap string value) (k : string) :
  is_Some (state !! k) -> is_Some (human_feedback_node state !! k).
Proof.
  intros Hk. unfold human_feedback_node.
  do 2 (apply lookup_insert_is_Some'; right).
  destruct (dict_contains state "feedback_required");
    destruct (dict_contains _ "feedback_text");
    rewrite ?lookup_insert_is_Some'; tauto.
Qed.

(** X4. Neither node removes a key: a key of the state given to the
    analysis node is a key of the state it returns, and of the state the
    feedback node returns after it. *)
Theorem nodes_keep_keys (m : AgentModule) (state state' : gmap string value)
  (k : string) :
  is_Some (state !! k) ->
  analyst_agent_node m state = Return state' ->
  is_Some (state' !! k) /\ is_Some (human_feedback_node state' !! k).
Proof.
  intros Hk Hnode.
  assert (Hk' : is_Some (state' !! k))
    by exact (analyst_agent_node_keeps_keys m state state' k Hnode Hk).
  split; [exact Hk' | by apply human_feedback_node_keeps_keys].
Qed.

Lemma nodes_keep_keys_witness :
  is_Some (absorbed Samples.initial_state [] "extraction failed: corrupt PDF"
             !! "pdf_path") /\
  is_Some (human_feedback_node
             (absorbed Samples.initial_state [] "extraction failed: corrupt PDF")
             !! "pdf_path").
Proof.
  apply (nodes_keep_keys Samples.flaky Samples.initial_state);
    [by eexists | reflexivity].
Defined.

(** X5. The feedback node is idempotent: running it on its own result
    changes nothing. *)
Theorem human_feedback_node_idempotent (state : gmap string value) :
  human_feedback_node (human_feedback_node state) = human_feedback_node state.
Proof.
  set (s1 := human_feedback_node state).
  assert (Hreq : dict_contains s1 "feedback_required" = true).
  { unfold dict_contains, s1.
    by rewrite NodeProps.human_feedback_node_feedback_required. }
  assert (Htext : dict_contains s1 "feedback_text" = true).
  { unfold dict_contains, s1, human_feedback_node.
    do 2 (rewrite lookup_insert_ne by done).
    destruct (dict_contains state "feedback_required");
      unfold dict_contains at 1;
      [destruct (state !! "feedback_text") eqn:Ht
      |destruct (<["feedback_required" := PyBool false]> state !! "feedback_text") eqn:Ht];
      rewrite ?Ht, ?lookup_insert_eq; done. }
  unfold human_feedback_node at 1. rewrite Hreq, Htext.
  apply map_eq. intros k.
  destruct (decide (k = "status")) as [->|Hs].
  { rewrite lookup_insert_eq. symmetry. apply NodeProps.human_feedback_node_status. }
  rewrite lookup_insert_ne by done.
  destruct (decide (k = "feedback_required")) as [->|Hf].
  { rewrite lookup_insert_eq. symmetry.
    apply NodeProps.human_feedback_node_feedback_required. }
  by rewrite lookup_insert_ne.
Qed.

(** X6. The feedback node keeps a [feedback_text] that is there, sets it to
    the empty string when it is missing, and leaves every key other than
    [status], [feedback_required] and [feedback_text] as it was. *)
Theorem human_feedback_node_frame (state : gmap string value) :
  human_feedback_node state !! "feedback_text"
    = Some (default (PyStr "") (state !! "feedback_text")) /\
  forall k : string,
    k ∉ ["status"; "feedback_required"; "feedback_text"] ->
    human_feedback_node state !! k = state !! k.
Proof.
  split; [|apply NodeProps.human_feedback_node_other_keys].
  unfold human_feedback_node.
  do 2 (rewrite lookup_insert_ne by done).
  unfold dict_contains.
  destruct (state !! "feedback_required").
  - destruct (state !! "feedback_text") eqn:Ht; simpl;
      [exact Ht | by rewrite lookup_insert_eq].
  - rewrite lookup_insert_ne by done.
    destruct (state !! "feedback_text") eqn:Ht; simpl.
    + by rewrite lookup_insert_ne.
    + by rewrite lookup_insert_eq.
Qed.

Lemma human_feedback_node_frame_witness :
  human_feedback_node Samples.initial_state !! "pdf_path"
    = Some (PyStr "script.pdf").
Proof.
  apply (proj2 (human_feedback_node_frame Samples.initial_state) "pdf_path").
  apply (bool_decide_unpack _). reflexivity.
Defined.

End NodeExtras.

(** ** Further properties of the graph *)

Module WorkflowExtras.

Import Nodes Workflow Observe Shapes.

(** Writing a state that has every key of the old one over the old one
    gives that state. *)
Lemma merge_full (update state : gmap string value) :
  (forall k, is_Some (state !! k) -> is_Some (update !! k)) ->
  update ∪ state = update.
Proof.
  intros Hkeys. apply map_eq. intros k. rewrite lookup_union.
  destruct (update !! k) as [v|] eqn:Hu; destruct (state !! k) as [w|] eqn:Hs;
    simpl; try done.
  destruct (Hkeys k) as [v Hv]; [by rewrite Hs | congruence].
Qed.

(** *** States within the schema *)

Lemma restrict_within (m : gmap string value) (k : string) :
  is_Some (restrict OptimizedWorkflowState m !! k) -> k ∈ OptimizedWorkflowState.
Proof.
  rewrite WorkflowProps.restrict_lookup.
  destruct (decide (k ∈ OptimizedWorkflowState)); [done | by intros [? ?]].
Qed.

Lemma restrict_id (m : gmap string value) :
  (forall k, is_Some (m !! k) -> k ∈ OptimizedWorkflowState) ->
  restrict OptimizedWorkflowState m = m.
Proof.
  intros Hin. apply map_eq. intros k. rewrite WorkflowProps.restrict_lookup.
  destruct (decide (k ∈ OptimizedWorkflowState)) as [|Hout]; [done|].
  destruct (m !! k) eqn:Hk; [|done].
  destruct Hout. apply Hin. by rewrite Hk.
Qed.

(** The analysis node adds keys of the schema only. *)
Lemma analyst_agent_node_within (m : AgentModule) (state state1 : gmap string value) :
  (forall k, is_Some (state !! k) -> k ∈ OptimizedWorkflowState) ->
  analyst_agent_node m state = Return state1 ->
  forall k, is_Some (state1 !! k) -> k ∈ OptimizedWorkflowState.
Proof.
  intros Hin Hnode k.
  destruct (NodeExtras.analyst_agent_node_shape m state state1 Hnode)
    as [[data ->]|(l & msg & _ & ->)];
    unfold succeeded, absorbed; rewrite !lookup_insert_is_Some';
    intros H; apply WorkflowProps.in_schema;
    repeat (destruct H as [<-|H]; [tauto|]);
    apply WorkflowProps.in_schema, Hin, H.
Qed.

(** The feedback node adds keys of the schema only. *)
Lemma human_feedback_node_within (state : gmap string value) :
  (forall k, is_Some (state !! k) -> k ∈ OptimizedWorkflowState) ->
  forall k, is_Some (human_feedback_node state !! k) -> k ∈ OptimizedWorkflowState.
Proof.
  intros Hin k Hk.
  destruct (decide (k = "status")) as [->|Hs]; [apply WorkflowProps.in_schema; tauto|].
  destruct (decide (k = "feedback_required")) as [->|Hr];
    [apply WorkflowProps.in_schema; tauto|].
  destruct (decide (k = "feedback_text")) as [->|Ht];
    [apply WorkflowProps.in_schema; tauto|].
  apply Hin. rewrite <- (NodeProps.human_feedback_node_other_keys state k); [done|].
  rewrite !not_elem_of_cons. repeat split; (done || apply not_elem_of_nil).
Qed.

(** A run of the graph, for a limit of at least three, is the feedback
    node applied to what the analysis node returns on the part of the input
    that is within the schema. *)
Lemma invoke_is_composition (m : AgentModule) (state state1 : gmap string value)
  (recursion_limit : nat) :
  3 <= recursion_limit ->
  analyst_agent_node m (restrict OptimizedWorkflowState state) = Return state1 ->
  invoke (create_workflow m) recursion_limit state
    = Finished ["analyst_agent"; "human_feedback"] (human_feedback_node state1).
Proof.
  intros Hlimit Hnode.
  destruct recursion_limit as [|[|[|limit]]]; [lia..|].
  rewrite WorkflowProps.invoke_create_workflow. cbn zeta. rewrite Hnode.
  assert (Hin1 : forall k, is_Some (state1 !! k) -> k ∈ OptimizedWorkflowState)
    by exact (analyst_agent_node_within m _ state1 (restrict_within state) Hnode).
  rewrite (restrict_id state1 Hin1).
  rewrite (merge_full state1 (restrict OptimizedWorkflowState state))
    by (intros k; apply (NodeExtras.analyst_agent_node_keeps_keys m _ state1 k Hnode)).
  rewrite (restrict_id (human_feedback_node state1))
    by exact (human_feedback_node_within state1 Hin1).
  by rewrite (merge_full (human_feedback_node state1) state1)
    by (intros k; apply NodeExtras.human_feedback_node_keeps_keys).
Qed.

(** What the analysis node reads of the input is within the schema. *)
Lemma restrict_pdf_path (state : gmap string value) :
  dict_get (restrict OptimizedWorkflowState state) "pdf_path" PyNone
    = dict_get state "pdf_path" PyNone.
Proof.
  unfold dict_get. rewrite WorkflowProps.restrict_lookup_in; [done|].
  apply WorkflowProps.in_schema. tauto.
Qed.

Lemma restrict_recorded_errors (state : gmap string value) :
  recorded_errors (restrict OptimizedWorkflowState state) = recorded_errors state.
Proof.
  unfold recorded_errors. rewrite WorkflowProps.restrict_lookup_in; [done|].
  apply WorkflowProps.in_schema. tauto.
Qed.

(** X7. A run of the graph, for a recursion limit of at least three,
    finishes through both nodes in a state that has the [pdf_path] entry of
    the initial state and no key outside the state schema: what the input
    holds outside the schema is dropped. *)
Theorem workflow_frame (m : AgentModule) (state : gmap string value)
  (recursion_limit : nat) :
  errors_well_typed state = true ->
  3 <= recursion_limit ->
  exists final,
    invoke (create_workflow m) recursion_limit state
      = Finished ["analyst_agent"; "human_feedback"] final /\
    final !! "pdf_path" = state !! "pdf_path" /\
    forall k : string, k ∉ OptimizedWorkflowState -> final !! k = None.
Proof.
  intros Hty Hlimit.
  destruct (NodeProps.analyst_agent_node_returns m
              (restrict OptimizedWorkflowState state)
              (WorkflowProps.restrict_errors_well_typed state Hty))
    as [state1 Hnode].
  rewrite (invoke_is_composition m state state1 recursion_limit Hlimit Hnode).
  eexists. split; [reflexivity|]. split.
  - rewrite NodeProps.human_feedback_node_other_keys
      by (rewrite !not_elem_of_cons; repeat split; (done || apply not_elem_of_nil)).
    transitivity (restrict OptimizedWorkflowState state !! "pdf_path").
    + destruct (NodeExtras.analyst_agent_node_shape m _ state1 Hnode)
        as [[data ->]|(l & msg & _ & ->)];
        unfold succeeded, absorbed; by rewrite !lookup_insert_ne.
    + apply WorkflowProps.restrict_lookup_in, WorkflowProps.in_schema. tauto.
  - intros k Hk.
    destruct (human_feedback_node state1 !! k) eqn:Hfinal; [|done].
    destruct Hk.
    apply (human_feedback_node_within state1
             (analyst_agent_node_within m _ state1 (restrict_within state) Hnode)).
    by rewrite Hfinal.
Qed.

Lemma workflow_frame_witness :
  exists final,
    invoke (create_workflow Samples.flaky) default_recursion_limit
      (<["request_id" := PyInt 7]> Samples.initial_state)
      = Finished ["analyst_agent"; "human_feedback"] final /\
    final !! "pdf_path"
      = (<["request_id" := PyInt 7]> Samples.initial_state) !! "pdf_path" /\
    forall k : string, k ∉ OptimizedWorkflowState -> final !! k = None.
Proof.
  apply (workflow_frame Samples.flaky
           (<["request_id" := PyInt 7]> Samples.initial_state)
           default_recursion_limit).
  - reflexivity.
  - unfold default_recursion_limit; lia.
Defined.

(** X8. When the agent invocation raises [e], the run of the graph, for a
    recursion limit of at least three, still finishes through both nodes,
    and the final state reports ['analysis_completed'] as [status] while
    [errors] ends with the message of [e] and [api_calls_used] is 1: the
    failure status of the analysis node does not survive the feedback
    node. *)
Theorem workflow_masks_failure (m : AgentModule) (state : gmap string value)
  (context : value) (e : exn) (recursion_limit : nat) :
  errors_well_typed state = true ->
  3 <= recursion_limit ->
  AnalysisContext m (dict_get state "pdf_path" PyNone) = Return context ->
  invoke_agent m (analysis_prompt (dict_get state "pdf_path" PyNone)) context = Raise e ->
  exists final,
    invoke (create_workflow m) recursion_limit state
      = Finished ["analyst_agent"; "human_feedback"] final /\
    final !! "status" = Some (PyStr "analysis_completed") /\
    final !! "errors" = Some (PyList (recorded_errors state ++ [PyStr (exn_str e)])) /\
    final !! "api_calls_used" = Some (PyInt 1) /\
    final !! "comprehensive_analysis" = state !! "comprehensive_analysis".
Proof.
  intros Hty Hlimit Hctx Hinv.
  set (state0 := restrict OptimizedWorkflowState state).
  assert (Hnode : analyst_agent_node m state0
                  = Return (absorbed state0 (recorded_errors state) (exn_str e))).
  { rewrite <- restrict_recorded_errors.
    apply NodeProps.analyst_agent_node_absorbs;
      [by apply WorkflowProps.restrict_errors_well_typed|].
    unfold analyst_agent_try, state0. rewrite restrict_pdf_path, Hctx. simpl.
    by rewrite Hinv. }
  rewrite (invoke_is_composition m state _ recursion_limit Hlimit Hnode).
  eexists. split; [reflexivity|].
  split; [apply NodeProps.human_feedback_node_status|].
  rewrite !NodeProps.human_feedback_node_other_keys
    by (rewrite !not_elem_of_cons; repeat split; (done || apply not_elem_of_nil)).
  unfold absorbed. repeat split.
  - rewrite lookup_insert_ne by done. by rewrite lookup_insert_eq.
  - by rewrite lookup_insert_eq.
  - rewrite !lookup_insert_ne by done.
    apply WorkflowProps.restrict_lookup_in, WorkflowProps.in_schema. tauto.
Qed.

Lemma workflow_masks_failure_witness :
  exists final,
    invoke (create_workflow Samples.flaky) default_recursion_limit Samples.initial_state
      = Finished ["analyst_agent"; "human_feedback"] final /\
    final !! "status" = Some (PyStr "analysis_completed") /\
    final !! "errors" = Some (PyList [PyStr "extraction failed: corrupt PDF"]) /\
    final !! "api_calls_used" = Some (PyInt 1) /\
    final !! "comprehensive_analysis" = None.
Proof.
  apply (workflow_masks_failure Samples.flaky Samples.initial_state Samples.context
           Samples.corrupt_pdf default_recursion_limit);
    first [reflexivity | unfold default_recursion_limit; lia].
Defined.

(** X9. When the agent invocation returns [result], the run of the graph,
    for a recursion limit of at least three, finishes through both nodes in
    a state whose [comprehensive_analysis] is the payload of [result], whose
    [status] is ['analysis_completed'], whose [api_calls_used] is 2 and
    whose [feedback_required] is false; the [errors] entry is the initial
    one. *)
Theorem workflow_success (m : AgentModule) (state : gmap string value)
  (context result : value) (recursion_limit : nat) :
  3 <= recursion_limit ->
  AnalysisContext m (dict_get state "pdf_path" PyNone) = Return context ->
  invoke_agent m (analysis_prompt (dict_get state "pdf_path" PyNone)) context
    = Return result ->
  exists final,
    invoke (create_workflow m) recursion_limit state
      = Finished ["analyst_agent"; "human_feedback"] final /\
    final !! "comprehensive_analysis" = Some (extract_analysis_data result) /\
    final !! "status" = Some (PyStr "analysis_completed") /\
    final !! "api_calls_used" = Some (PyInt 2) /\
    final !! "feedback_required" = Some (PyBool false) /\
    final !! "errors" = state !! "errors".
Proof.
  intros Hlimit Hctx Hinv.
  set (state0 := restrict OptimizedWorkflowState state).
  assert (Hnode : analyst_agent_node m state0
                  = Return (succeeded state0 (extract_analysis_data result))).
  { unfold analyst_agent_node, analyst_agent_try, state0.
    rewrite restrict_pdf_path, Hctx. simpl. by rewrite Hinv. }
  rewrite (invoke_is_composition m state _ recursion_limit Hlimit Hnode).
  eexists. split; [reflexivity|].
  rewrite NodeProps.human_feedback_node_status,
    NodeProps.human_feedback_node_feedback_required.
  rewrite !NodeProps.human_feedback_node_other_keys
    by (rewrite !not_elem_of_cons; repeat split; (done || apply not_elem_of_nil)).
  unfold succeeded. repeat split.
  - do 2 (rewrite lookup_insert_ne by done). by rewrite lookup_insert_eq.
  - by rewrite lookup_insert_eq.
  - rewrite !lookup_insert_ne by done.
    apply WorkflowProps.restrict_lookup_in, WorkflowProps.in_schema. tauto.
Qed.

Lemma workflow_success_witness :
  exists final,
    invoke (create_workflow Samples.run_only) default_recursion_limit
      Samples.initial_state
      = Finished ["analyst_agent"; "human_feedback"] final /\
    final !! "comprehensive_analysis" = Some (PyDict [("total_scenes", PyInt 12)]) /\
    final !! "status" = Some (PyStr "analysis_completed") /\
    final !! "api_calls_used" = Some (PyInt 2) /\
    final !! "feedback_required" = Some (PyBool false) /\
    final !! "errors" = Some (PyList []).
Proof.
  apply (workflow_success Samples.run_only Samples.initial_state Samples.context
           Samples.analysis default_recursion_limit);
    first [reflexivity | unfold default_recursion_limit; lia].
Defined.

(** The run of [Samples.flaky] ends in [MoreSamples.failed_state]. *)
Example failed_run_final_state :
  invoke (create_workflow Samples.flaky) default_recursion_limit Samples.initial_state
    = Finished ["analyst_agent"; "human_feedback"] MoreSamples.failed_state.
Proof. vm_compute. reflexivity. Qed.

End WorkflowExtras.

(** ** Properties of the text helpers *)

Module TextProps.

Import Text.

Lemma lower_app (a b : string) : lower (a ++ b) = lower a ++ lower b.
Proof. induction a as [|c a IH]; simpl; [reflexivity | by rewrite IH]. Qed.

Lemma append_cons (c : ascii) (a b : string) : String c a ++ b = String c (a ++ b).
Proof. reflexivity. Qed.

Lemma prefix_spec (needle hay : string) :
  String.prefix needle hay = true <-> exists post, hay = needle ++ post.
Proof.
  revert hay. induction needle as [|c needle IH]; intros [|c' hay]; simpl.
  - split; [by exists "" | done].
  - split; [by exists (String c' hay) | done].
  - split; [discriminate | by intros [post ?]].
  - destruct (Ascii.ascii_dec c c') as [->|Hne].
    + rewrite IH. split; intros [post H]; exists post;
        rewrite append_cons in *; congruence.
    + split; [discriminate | intros [post H]; rewrite append_cons in H; congruence].
Qed.

Lemma contains_unfold (needle hay : string) :
  contains needle hay =
    if String.prefix needle hay then true
    else match hay with
         | EmptyString => false
         | String _ rest => contains needle rest
         end.
Proof. by destruct hay. Qed.

(** [contains] is the substring test. *)
Lemma contains_spec (needle hay : string) :
  contains needle hay = true <-> exists pre post, hay = pre ++ needle ++ post.
Proof.
  split.
  - induction hay as [|c hay IH]; rewrite contains_unfold;
      destruct (String.prefix needle _) eqn:Hp;
      try (intros _; apply prefix_spec in Hp as [post Hpost]; by exists "", post).
    + discriminate.
    + intros H. destruct (IH H) as (pre & post & ->).
      by exists (String c pre), post.
  - intros (pre & post & ->).
    induction pre as [|c pre IH]; rewrite contains_unfold.
    + assert (Hp : String.prefix needle (needle ++ post) = true)
        by (apply prefix_spec; by exists post).
      change ("" ++ needle ++ post) with (needle ++ post). by rewrite Hp.
    + rewrite append_cons, IH. by destruct (String.prefix needle _).
Qed.

Lemma contains_lower_app (word pre mid post : string) :
  lower mid = word -> contains word (lower (pre ++ mid ++ post)) = true.
Proof.
  intros <-. apply contains_spec.
  exists (lower pre), (lower post). by rewrite !lower_app.
Qed.

End TextProps.

(** ** Further properties of the endpoints of api.py *)

Module ApiExtras.

Import Text AnalyzedScriptService Api.

Local Open Scope Z_scope.


(** X11. A message that mentions the word extract anywhere, in any letter
    case, is classified as a failed PDF extraction with status 422, whatever
    else it mentions. *)
Theorem classify_error_extract (pre word post : string) :
  lower word = "extract" ->
  classify_error (pre ++ word ++ post)
    = http_exception 422 ("PDF extraction failed: " ++ pre ++ word ++ post).
Proof.
  intros Hword. unfold classify_error.
  by rewrite (TextProps.contains_lower_app "extract" pre word post Hword).
Qed.

Lemma classify_error_extract_witness :
  classify_error "Analysis error: could not EXTRACT text"
    = http_exception 422
        "PDF extraction failed: Analysis error: could not EXTRACT text".
Proof.
  apply (classify_error_extract "Analysis error: could not " "EXTRACT" " text").
  reflexivity.
Defined.

Lemma classify_error_is_http (error_message : string) :
  is_http_exception (classify_error error_message) = true.
Proof.
  unfold classify_error.
  repeat match goal with |- context [if ?b then _ else _] => destruct b end;
    reflexivity.
Qed.

Lemma analyze_script_except_raises {A} (r : outcome A) (e : exn) :
  analyze_script_except r = Raise e -> is_http_exception e = true.
Proof.
  unfold analyze_script_except. destruct r as [a|e0]; [discriminate|].
  destruct (is_http_exception e0) eqn:Hhttp; intros [= <-];
    [exact Hhttp | apply classify_error_is_http].
Qed.

Lemma analyze_script_try_returns (env : Env) (file : UploadFile) (save_to_db : bool)
  (file_size : Z) (path : string) (records : list AnalyzedScript) (r : JSONResponse) :
  fst (analyze_script_try env file save_to_db file_size path records) = Return r ->
  status_code r = 200.
Proof.
  unfold analyze_script_try.
  destruct (timed_analysis env path) as [result|e]; [|discriminate].
  destruct (serialize env result) as [clean|e]; [|discriminate].
  destruct save_to_db; cbn [fst]; unfold json_response;
    destruct (renders _); [|discriminate| |discriminate]; by intros [= <-].
Qed.

(** X12. Once the file has passed [validate_file], the endpoint either
    returns a response with status 200 or raises an [HTTPException]: no other
    exception leaves it. *)
Theorem analyze_script_outcomes (env : Env) (file : UploadFile) (save_to_db : bool)
  (w : World) :
  validate_file env file = Return tt ->
  match fst (analyze_script env file save_to_db w) with
  | Return r => status_code r = 200
  | Raise e => is_http_exception e = true
  end.
Proof.
  intros Hvalid. unfold analyze_script. rewrite Hvalid.
  destruct (read env file ≫= validate_file_size env) as [file_size|e] eqn:Hw;
    cbn [fst].
  - destruct (analyze_script_except (A := JSONResponse) _) as [r|e] eqn:Hr.
    + unfold analyze_script_except in Hr.
      destruct (fst (analyze_script_try _ _ _ _ _ _)) as [r0|e0] eqn:Htry.
      * injection Hr as <-. by apply analyze_script_try_returns in Htry.
      * by destruct (is_http_exception e0).
    + by apply analyze_script_except_raises in Hr.
  - destruct (analyze_script_except (A := JSONResponse) (Raise e)) as [r|e'] eqn:Hr.
    + unfold analyze_script_except in Hr. by destruct (is_http_exception e).
    + by apply analyze_script_except_raises in Hr.
Qed.

Lemma analyze_script_outcomes_witness :
  match fst (analyze_script
               (MoreSamples.failing (MkExn OtherException "out of memory"))
               Samples.upload true Samples.world) with
  | Return r => status_code r = 200
  | Raise e => is_http_exception e = true
  end.
Proof.
  apply (analyze_script_outcomes
           (MoreSamples.failing (MkExn OtherException "out of memory"))
           Samples.upload true Samples.world).
  reflexivity.
Defined.

(** X13. With [save_to_db] false the endpoint leaves the stored records as
    they were, whatever the collaborators do. *)
Theorem analyze_script_without_saving (env : Env) (file : UploadFile) (w : World) :
  db (snd (analyze_script env file false w)) = db w.
Proof.
  unfold analyze_script.
  destruct (validate_file env file); [|reflexivity].
  destruct (read env file ≫= validate_file_size env) as [file_size|e];
    [|reflexivity].
  cbn [snd db]. unfold analyze_script_try.
  destruct (timed_analysis env (temp_file_name env)) as [result|e]; [|reflexivity].
  by destruct (serialize env result).
Qed.

(** The request once the upload step has ended normally. *)
Lemma analyze_script_written (env : Env) (file : UploadFile) (save_to_db : bool)
  (w : World) (file_size : Z) :
  validate_file env file = Return tt ->
  (content ← read env file; validate_file_size env content) = Return file_size ->
  analyze_script env file save_to_db w =
    let r := analyze_script_try env file save_to_db file_size (temp_file_name env) (db w) in
    (analyze_script_except (fst r),
     {| db := snd r;
        temp_files := cleanup (unlink env) (Some (temp_file_name env))
                        (temp_file_name env :: temp_files w) |}).
Proof.
  intros Hvalid Hwritten. unfold analyze_script. by rewrite Hvalid, Hwritten.
Qed.



(** The same request when the file cannot be unlinked. *)
Example temp_file_stays_when_unlink_fails :
  temp_files (snd (analyze_script MoreSamples.locked Samples.upload true
                     Samples.world)) = ["/tmp/tmpk3v9x2.pdf"].
Proof. reflexivity. Qed.

(** X15. When reading the upload or checking its size raises, the
    temporary file that was opened for it stays: its path is bound only at
    the end of the [with] block, so the [finally] block has nothing to
    remove; the exception is re-raised when it is an [HTTPException] and
    classified otherwise, and the stored records are untouched. *)
Theorem analyze_script_leaves_temp_file (env : Env) (file : UploadFile)
  (save_to_db : bool) (w : World) (e : exn) :
  validate_file env file = Return tt ->
  (content ← read env file; validate_file_size env content) = Raise e ->
  analyze_script env file save_to_db w
    = (Raise (if is_http_exception e then e else classify_error (exn_str e)),
       {| db := db w; temp_files := temp_file_name env :: temp_files w |}).
Proof.
  intros Hvalid Hwritten. unfold analyze_script. rewrite Hvalid, Hwritten.
  unfold analyze_script_except, cleanup. by destruct (is_http_exception e).
Qed.

Lemma analyze_script_leaves_temp_file_witness :
  analyze_script MoreSamples.too_large Samples.upload true Samples.world
    = (Raise (MkExn (HTTPException 413 "File too large") "413: File too large"),
       {| db := []; temp_files := ["/tmp/tmpk3v9x2.pdf"] |}).
Proof.
  apply (analyze_script_leaves_temp_file MoreSamples.too_large Samples.upload true
           Samples.world
           (MkExn (HTTPException 413 "File too large") "413: File too large"));
    reflexivity.
Defined.

(** X16. When the analysis raises, within the timeout, an exception that
    is neither a timeout nor an [HTTPException], the endpoint raises the
    classification of its message and stores nothing. *)
Theorem analyze_script_analysis_error (env : Env) (file : UploadFile)
  (save_to_db : bool) (w : World) (file_size duration : Z) (e : exn) :
  validate_file env file = Return tt ->
  (content ← read env file; validate_file_size env content) = Return file_size ->
  run_optimized_script_analysis env (temp_file_name env) = (duration, Raise e) ->
  duration <= 300 ->
  is_timeout_error e = false ->
  is_http_exception e = false ->
  fst (analyze_script env file save_to_db w) = Raise (classify_error (exn_str e)) /\
  db (snd (analyze_script env file save_to_db w)) = db w.
Proof.
  intros Hvalid Hwritten Hrun Hle Htimeout Hhttp.
  rewrite (analyze_script_written env file save_to_db w file_size Hvalid Hwritten).
  cbn zeta. unfold analyze_script_try, timed_analysis, wait_for.
  rewrite Hrun. cbn [fst snd].
  destruct (300 <? duration) eqn:Hlt; [apply Z.ltb_lt in Hlt; lia|].
  unfold try_except_TimeoutError. rewrite Htimeout. cbn [fst snd db].
  unfold analyze_script_except. by rewrite Hhttp.
Qed.

Lemma analyze_script_analysis_error_witness :
  fst (analyze_script (MoreSamples.failing Samples.corrupt_pdf) Samples.upload true
         Samples.world)
    = Raise (http_exception 422
               "PDF extraction failed: extraction failed: corrupt PDF") /\
  db (snd (analyze_script (MoreSamples.failing Samples.corrupt_pdf) Samples.upload
             true Samples.world)) = [].
Proof.
  apply (analyze_script_analysis_error (MoreSamples.failing Samples.corrupt_pdf)
           Samples.upload true Samples.world 8 12 Samples.corrupt_pdf);
    first [reflexivity | lia].
Defined.

(** X17. When the upload is valid, the analysis ends within the timeout,
    its result serializes, the response data render as JSON and the save
    returns a record, the endpoint returns status 200 with the identifier of
    the record under [database_id] and no [database_error], and the stored
    records are those the save left. *)
Theorem analyze_script_saved (env : Env) (file : UploadFile) (w : World)
  (file_size duration : Z) (result : gmap string value)
  (clean_result : list (string * value)) (saved_script : AnalyzedScript)
  (records : list AnalyzedScript) :
  validate_file env file = Return tt ->
  (content ← read env file; validate_file_size env content) = Return file_size ->
  run_optimized_script_analysis env (temp_file_name env) = (duration, Return result) ->
  duration <= 300 ->
  serialize env result = Return clean_result ->
  renders (response_data env file file_size result clean_result) = true ->
  create_analyzed_script (service env) (db w)
    (new_script env file file_size result clean_result)
    = (Return saved_script, records) ->
  exists body,
    fst (analyze_script env file true w)
      = Return {| status_code := 200; content := body |} /\
    body !! "database_id" = Some (PyStr (id saved_script)) /\
    body !! "database_error" = None /\
    body !! "success" = Some (PyBool true) /\
    db (snd (analyze_script env file true w)) = records.
Proof.
  intros Hvalid Hwritten Hrun Hle Hser Hrenders Hsave.
  rewrite (analyze_script_written env file true w file_size Hvalid Hwritten).
  cbn zeta. unfold analyze_script_try.
  rewrite (ApiProps.timed_analysis_in_time env _ duration result Hrun Hle), Hser.
  unfold save_analysis. rewrite Hsave. cbn [fst snd db].
  rewrite ApiProps.json_response_renders by (by apply ApiProps.renders_insert).
  cbn [analyze_script_except].
  eexists. split; [reflexivity|].
  split; [by rewrite lookup_insert_eq|].
  rewrite !lookup_insert_ne by done.
  split; [|split; [apply ApiProps.response_data_success | reflexivity]].
  unfold response_data. rewrite !lookup_insert_ne by done. apply lookup_empty.
Qed.

Lemma analyze_script_saved_witness :
  exists body,
    fst (analyze_script (Samples.env 12 Store.service) Samples.upload true
           Samples.world)
      = Return {| status_code := 200; content := body |} /\
    body !! "database_id" = Some (PyStr "0") /\
    body !! "database_error" = None /\
    body !! "success" = Some (PyBool true) /\
    db (snd (analyze_script (Samples.env 12 Store.service) Samples.upload true
               Samples.world)) = [MoreSamples.stored].
Proof.
  apply (analyze_script_saved (Samples.env 12 Store.service) Samples.upload
           Samples.world 8 12 Samples.finished_state
           [("data", PyDict [("total_scenes", PyInt 12)])]
           MoreSamples.stored [MoreSamples.stored]);
    first [reflexivity | lia].
Defined.

(** X18. When the upload is valid, the analysis ends within the timeout,
    its result serializes and the response data render as JSON, the
    endpoint returns status 200 with [success] true and the message of a
    completed analysis, whether or not the result is saved and however the
    save ends: the [status] and the [errors] of the result are not looked
    at. *)
Theorem analyze_script_reports_success (env : Env) (file : UploadFile)
  (save_to_db : bool) (w : World) (file_size duration : Z)
  (result : gmap string value) (clean_result : list (string * value)) :
  validate_file env file = Return tt ->
  (content ← read env file; validate_file_size env content) = Return file_size ->
  run_optimized_script_analysis env (temp_file_name env) = (duration, Return result) ->
  duration <= 300 ->
  serialize env result = Return clean_result ->
  renders (response_data env file file_size result clean_result) = true ->
  exists body,
    fst (analyze_script env file save_to_db w)
      = Return {| status_code := 200; content := body |} /\
    body !! "success" = Some (PyBool true) /\
    body !! "message" = Some (PyStr "Script analysis completed successfully").
Proof.
  intros Hvalid Hwritten Hrun Hle Hser.
  assert (Hmsg : response_data env file file_size result clean_result !! "message"
                 = Some (PyStr "Script analysis completed successfully")).
  { unfold response_data. rewrite !lookup_insert_ne by done.
    by rewrite lookup_insert_eq. }
  intros Hrenders.
  rewrite (analyze_script_written env file save_to_db w file_size Hvalid Hwritten).
  cbn zeta. unfold analyze_script_try.
  rewrite (ApiProps.timed_analysis_in_time env _ duration result Hrun Hle), Hser.
  destruct save_to_db; cbn [fst].
  - unfold save_analysis.
    destruct (fst (create_analyzed_script _ _ _)); cbn [fst];
      (rewrite ApiProps.json_response_renders
         by (apply ApiProps.renders_insert; [reflexivity | exact Hrenders]));
      clear Hrenders; cbn [analyze_script_except];
      (eexists; split; [reflexivity|]);
      rewrite !lookup_insert_ne by done;
      (split; [apply ApiProps.response_data_success | exact Hmsg]).
  - rewrite ApiProps.json_response_renders by exact Hrenders.
    cbn [analyze_script_except].
    eexists. split; [reflexivity|].
    split; [apply ApiProps.response_data_success | exact Hmsg].
Qed.

Lemma analyze_script_reports_success_witness :
  exists body,
    fst (analyze_script MoreSamples.failed_run Samples.upload false Samples.world)
      = Return {| status_code := 200; content := body |} /\
    body !! "success" = Some (PyBool true) /\
    body !! "message" = Some (PyStr "Script analysis completed successfully").
Proof.
  apply (analyze_script_reports_success MoreSamples.failed_run Samples.upload false
           Samples.world 8 12 MoreSamples.failed_state []);
    first [reflexivity | lia].
Defined.

End ApiExtras.

(** ** Properties of the listing and of the endpoints by identifier *)

Module ListingExtras.

Import AnalyzedScriptService AnalyzedScriptLookup Api ApiById.

Local Open Scope Z_scope.

(** X19. The listing either returns a page with [success] true or raises
    an [HTTPException] with status 500 whose detail starts with
    ['Failed to retrieve scripts: ']; an [HTTPException] raised by the
    service is wrapped like any other exception. *)
Theorem listing_outcomes (svc : Service) (skip limit : Z)
  (order_by order_direction : string) (status_filter search : option string)
  (records : list AnalyzedScript) :
  (exists body,
      get_all_analyzed_scripts svc skip limit order_by order_direction
        status_filter search records = Return body /\
      body !! "success" = Some (PyBool true)) \/
  (exists e,
      select_scripts svc skip limit order_by order_direction status_filter search
        records = Raise e /\
      get_all_analyzed_scripts svc skip limit order_by order_direction
        status_filter search records
        = Raise (http_exception 500 ("Failed to retrieve scripts: " ++ exn_str e))).
Proof.
  unfold get_all_analyzed_scripts.
  destruct (select_scripts _ _ _ _ _ _ _ _) as [selected|e]; simpl.
  - left. eexists. split; [reflexivity|].
    unfold page. rewrite !lookup_insert_ne by done. by rewrite lookup_insert_eq.
  - right. by exists e.
Qed.

(** X20. When a search term is given and the search returns [scripts], the
    page reports the number of returned scripts as [total] and [has_more]
    false, for every non-negative [skip]: a search never announces a
    further page. *)
Theorem listing_search_has_no_more (svc : Service) (skip limit : Z)
  (order_by order_direction : string) (status_filter : option string)
  (term : string) (records scripts : list AnalyzedScript) :
  term <> "" ->
  0 <= skip ->
  search_scripts svc records term skip limit = Return scripts ->
  exists body,
    get_all_analyzed_scripts svc skip limit order_by order_direction
      status_filter (Some term) records = Return body /\
    body !! "data" = Some (PyList (List.map (to_summary_dict svc) scripts)) /\
    body !! "pagination"
      = Some (PyDict [ ("total", PyInt (len scripts)); ("skip", PyInt skip);
                       ("limit", PyInt limit); ("returned", PyInt (len scripts));
                       ("has_more", PyBool false) ]).
Proof.
  intros Hterm Hskip Hsearch.
  unfold get_all_analyzed_scripts, select_scripts, given.
  apply String.eqb_neq in Hterm. rewrite Hterm, Hsearch. simpl.
  eexists. split; [reflexivity|]. unfold page. split.
  - do 2 (rewrite lookup_insert_ne by done). by rewrite lookup_insert_eq.
  - rewrite lookup_insert_ne by done. rewrite lookup_insert_eq.
    replace (skip + len scripts <? len scripts) with false; [reflexivity|].
    symmetry. apply Z.ltb_ge. lia.
Qed.

Lemma listing_search_has_no_more_witness :
  exists body,
    get_all_analyzed_scripts Store.service 0 1 "created_at" "desc" None
      (Some "script") [MoreSamples.stored; MoreSamples.stored] = Return body /\
    body !! "data" = Some (PyList [Store.summary MoreSamples.stored]) /\
    body !! "pagination"
      = Some (PyDict [ ("total", PyInt 1); ("skip", PyInt 0);
                       ("limit", PyInt 1); ("returned", PyInt 1);
                       ("has_more", PyBool false) ]).
Proof.
  apply (listing_search_has_no_more Store.service 0 1 "created_at" "desc" None
           "script" [MoreSamples.stored; MoreSamples.stored] [MoreSamples.stored]);
    first [discriminate | lia | reflexivity].
Defined.

(** X21. Fetching by identifier returns a body only when the lookup found
    a record, with [to_dict] of that record under [data].  Otherwise it
    raises an [HTTPException]: the 404 one, as it is, when the lookup finds
    no record, and for an exception of the lookup that exception itself when
    it is an [HTTPException], the 500 one with its message when it is not. *)
Theorem get_analyzed_script_outcomes (svc : Lookup) (script_id : string)
  (records : list AnalyzedScript) :
  match get_analyzed_script svc script_id records with
  | Return body =>
      exists script,
        get_analyzed_script_by_id svc records script_id = Return (Some script) /\
        body !! "data" = Some (to_dict svc script) /\
        body !! "success" = Some (PyBool true)
  | Raise e =>
      is_http_exception e = true /\
      ((get_analyzed_script_by_id svc records script_id = Return None /\
        e = http_exception 404 "Analyzed script not found") \/
       (exists e0,
           get_analyzed_script_by_id svc records script_id = Raise e0 /\
           e = if is_http_exception e0 then e0
               else http_exception 500 ("Failed to retrieve script: " ++ exn_str e0)))
  end.
Proof.
  unfold get_analyzed_script.
  destruct (get_analyzed_script_by_id svc records script_id) as [[script|]|e0]; simpl.
  - exists script. split; [reflexivity|]. split.
    + rewrite lookup_insert_ne by done. by rewrite lookup_insert_eq.
    + rewrite !lookup_insert_ne by done. by rewrite lookup_insert_eq.
  - split; [reflexivity|]. by left.
  - destruct (is_http_exception e0) eqn:Hhttp; (split; [done|]); right;
      exists e0; by rewrite Hhttp.
Qed.

(** Fetching an identifier that is not stored, and fetching while the
    database is unreachable. *)
Example get_analyzed_script_examples :
  get_analyzed_script MoreSamples.lookup "7" [MoreSamples.stored]
    = Raise (http_exception 404 "Analyzed script not found") /\
  get_analyzed_script MoreSamples.unreachable_lookup "0" [MoreSamples.stored]
    = Raise (http_exception 500 "Failed to retrieve script: connection refused").
Proof. split; reflexivity. Qed.

(** X22. Deleting by identifier leaves the records as the service's
    deletion left them and returns a body only when the service reports a
    removal.  Otherwise it raises an [HTTPException]: the 404 one, as it is,
    when the service reports no removal, and for an exception of the service
    that exception itself when it is an [HTTPException], the 500 one with
    its message when it is not. *)
Theorem delete_analyzed_script_outcomes (svc : Lookup) (script_id : string)
  (records : list AnalyzedScript) :
  snd (ApiById.delete_analyzed_script svc script_id records)
    = snd (AnalyzedScriptLookup.delete_analyzed_script svc records script_id) /\
  match fst (ApiById.delete_analyzed_script svc script_id records) with
  | Return body =>
      fst (AnalyzedScriptLookup.delete_analyzed_script svc records script_id)
        = Return true /\
      body !! "message"
        = Some (PyStr ("Analyzed script " ++ script_id ++ " deleted successfully"))
  | Raise e =>
      is_http_exception e = true /\
      ((fst (AnalyzedScriptLookup.delete_analyzed_script svc records script_id)
          = Return false /\
        e = http_exception 404 "Analyzed script not found") \/
       (exists e0,
           fst (AnalyzedScriptLookup.delete_analyzed_script svc records script_id)
             = Raise e0 /\
           e = if is_http_exception e0 then e0
               else http_exception 500 ("Failed to delete script: " ++ exn_str e0)))
  end.
Proof.
  unfold ApiById.delete_analyzed_script. split; [reflexivity|]. cbn [fst].
  destruct (fst (AnalyzedScriptLookup.delete_analyzed_script svc records script_id))
    as [[|]|e0]; simpl.
  - split; [reflexivity | by rewrite lookup_insert_eq].
  - split; [reflexivity|]. by left.
  - destruct (is_http_exception e0) eqn:Hhttp; (split; [done|]); right;
      exists e0; by rewrite Hhttp.
Qed.

(** Deleting a stored record, then one that is not stored. *)
Example delete_analyzed_script_examples :
  snd (ApiById.delete_analyzed_script MoreSamples.lookup "0" [MoreSamples.stored]) = [] /\
  fst (ApiById.delete_analyzed_script MoreSamples.lookup "0" [])
    = Raise (http_exception 404 "Analyzed script not found").
Proof. split; reflexivity. Qed.

End ListingExtras.

(** ** Properties of the endpoints of api_2.py *)

Module Api2Extras.

Import AnalyzedScriptService Api Api2.

Local Open Scope Z_scope.

Lemma analyze_script_try_reached (env : Env) (p : Pydantic) (file : UploadFile)
  (files : list string) (file_size : Z) :
  validate_file env file = Return tt ->
  (content ← read env file; validate_file_size env content) = Return file_size ->
  fst (Api2.analyze_script env p file files)
    = analyze_script_except
        (Api2.analyze_script_try env p file file_size (temp_file_name env)).
Proof.
  intros Hvalid Hwritten. unfold Api2.analyze_script. by rewrite Hvalid, Hwritten.
Qed.

(** X23. When the analysis ends within the timeout with a result whose
    [comprehensive_analysis] is missing, [None] or empty (as after a failed
    analysis step), the endpoint raises the [HTTPException] with status 500
    and the detail that no analysis data was found; the errors recorded in
    the result are not reported. *)
Theorem analyze_script_without_analysis (env : Env) (p : Pydantic)
  (file : UploadFile) (files : list string) (file_size duration : Z)
  (result : gmap string value) :
  validate_file env file = Return tt ->
  (content ← read env file; validate_file_size env content) = Return file_size ->
  run_optimized_script_analysis env (temp_file_name env) = (duration, Return result) ->
  duration <= 300 ->
  truthy (dict_get result "comprehensive_analysis" PyNone) = false ->
  fst (Api2.analyze_script env p file files)
    = Raise (http_exception 500
               "Analysis completed but no comprehensive analysis data found").
Proof.
  intros Hvalid Hwritten Hrun Hle Hfalsy.
  rewrite (analyze_script_try_reached env p file files file_size Hvalid Hwritten).
  unfold Api2.analyze_script_try.
  rewrite (ApiProps.timed_analysis_in_time env _ duration result Hrun Hle).
  simpl. by rewrite Hfalsy.
Qed.

Lemma analyze_script_without_analysis_witness :
  fst (Api2.analyze_script MoreSamples.failed_run MoreSamples.pydantic
         Samples.upload [])
    = Raise (http_exception 500
               "Analysis completed but no comprehensive analysis data found").
Proof.
  apply (analyze_script_without_analysis MoreSamples.failed_run MoreSamples.pydantic
           Samples.upload [] 8 12 MoreSamples.failed_state);
    first [reflexivity | lia].
Defined.

(** X24. When the analysis ends within the timeout with a non-empty
    [comprehensive_analysis], its conversion to a dictionary returns
    [analysis_data] and the response data render as JSON, the endpoint
    returns status 200 with [analysis_data] under both [data] and
    [analysis_data], and the [save_request] of the body carries the same
    [analysis_data] with the file name and size of the upload. *)
Theorem analyze_script_save_compatible (env : Env) (p : Pydantic)
  (file : UploadFile) (files : list string) (file_size duration : Z)
  (result : gmap string value) (analysis_data : value) :
  validate_file env file = Return tt ->
  (content ← read env file; validate_file_size env content) = Return file_size ->
  run_optimized_script_analysis env (temp_file_name env) = (duration, Return result) ->
  duration <= 300 ->
  truthy (dict_get result "comprehensive_analysis" PyNone) = true ->
  to_analysis_data p (dict_get result "comprehensive_analysis" PyNone)
    = Return analysis_data ->
  renders (Api2.response_data env file file_size result analysis_data) = true ->
  exists body save_request,
    fst (Api2.analyze_script env p file files)
      = Return {| status_code := 200; content := body |} /\
    body !! "data" = Some analysis_data /\
    body !! "analysis_data" = Some analysis_data /\
    body !! "save_request" = Some (PyDict save_request) /\
    assoc "analysis_data" save_request = Some analysis_data /\
    assoc "filename" save_request = Some (upload_filename file) /\
    assoc "file_size_bytes" save_request = Some (PyInt file_size).
Proof.
  intros Hvalid Hwritten Hrun Hle Htruthy Hdata Hrenders.
  rewrite (analyze_script_try_reached env p file files file_size Hvalid Hwritten).
  unfold Api2.analyze_script_try.
  rewrite (ApiProps.timed_analysis_in_time env _ duration result Hrun Hle).
  cbn [mbind outcome_bind Py.bind]. rewrite Htruthy. cbn [negb].
  rewrite Hdata. cbn [mbind outcome_bind Py.bind].
  rewrite (ApiProps.json_response_renders _ _ Hrenders). clear Hrenders.
  cbn [analyze_script_except].
  eexists _, _. split; [reflexivity|]. unfold Api2.response_data.
  split; [do 2 (rewrite lookup_insert_ne by done); by rewrite lookup_insert_eq|].
  split; [rewrite lookup_insert_ne by done; by rewrite lookup_insert_eq|].
  split; [by rewrite lookup_insert_eq|].
  repeat split.
Qed.

Lemma analyze_script_save_compatible_witness :
  exists body save_request,
    fst (Api2.analyze_script (Samples.env 12 Store.service) MoreSamples.pydantic
           Samples.upload [])
      = Return {| status_code := 200; content := body |} /\
    body !! "data" = Some (PyDict [("total_scenes", PyInt 12)]) /\
    body !! "analysis_data" = Some (PyDict [("total_scenes", PyInt 12)]) /\
    body !! "save_request" = Some (PyDict save_request) /\
    assoc "analysis_data" save_request = Some (PyDict [("total_scenes", PyInt 12)]) /\
    assoc "filename" save_request = Some (PyStr "script.pdf") /\
    assoc "file_size_bytes" save_request = Some (PyInt 8).
Proof.
  apply (analyze_script_save_compatible (Samples.env 12 Store.service)
           MoreSamples.pydantic Samples.upload [] 8 12 Samples.finished_state
           (PyDict [("total_scenes", PyInt 12)]));
    first [reflexivity | lia].
Defined.

(** X25. When the save raises [e], whatever its class, the save endpoint
    raises the [HTTPException] with status 500 whose detail is
    ['Failed to save analysis to database: '] followed by the message of
    [e]: unlike in the analysis endpoint of [api.py], a failed save fails the
    request. *)
Theorem save_analysis_failure_is_fatal (svc : Service) (cols : SavedColumns)
  (request : SaveAnalysisRequest) (records : list AnalyzedScript) (e : exn) :
  fst (create_analyzed_script svc records (new_script_of_request request)) = Raise e ->
  fst (save_analysis_to_database svc cols request records)
    = Raise (http_exception 500
               ("Failed to save analysis to database: " ++ exn_str e)).
Proof.
  intros Hsave. unfold save_analysis_to_database. cbn [fst]. by rewrite Hsave.
Qed.

Lemma save_analysis_failure_is_fatal_witness :
  fst (save_analysis_to_database Samples.unreachable MoreSamples.columns
         MoreSamples.request [])
    = Raise (http_exception 500
               "Failed to save analysis to database: connection refused").
Proof.
  apply (save_analysis_failure_is_fatal Samples.unreachable MoreSamples.columns
           MoreSamples.request [] (MkExn OtherException "connection refused")).
  reflexivity.
Defined.

(** X26. When the save returns a record, the creation time of the record
    formats and the response data render as JSON, the save endpoint returns
    status 201 with the identifier of the record under [database_id]; the
    record was created from the request's file name, size and analysis data,
    with the file name standing in for a missing or empty original file
    name. *)
Theorem save_analysis_created (svc : Service) (cols : SavedColumns)
  (request : SaveAnalysisRequest) (records : list AnalyzedScript)
  (saved_script : AnalyzedScript) (saved_at : string) :
  fst (create_analyzed_script svc records (new_script_of_request request))
    = Return saved_script ->
  created_at_isoformat cols saved_script = Return saved_at ->
  renders (saved_response cols saved_script saved_at) = true ->
  (exists body,
      fst (save_analysis_to_database svc cols request records)
        = Return {| status_code := 201; content := body |} /\
      body !! "database_id" = Some (PyStr (id saved_script)) /\
      body !! "saved_at" = Some (PyStr saved_at) /\
      body !! "success" = Some (PyBool true)) /\
  snd (save_analysis_to_database svc cols request records)
    = snd (create_analyzed_script svc records (new_script_of_request request)) /\
  new_analysis_data (new_script_of_request request) = req_analysis_data request /\
  new_original_filename (new_script_of_request request)
    = (if truthy (req_original_filename request)
       then req_original_filename request else req_filename request).
Proof.
  intros Hsave Hformat Hrenders.
  unfold save_analysis_to_database. cbn [fst snd]. rewrite Hsave.
  cbn [mbind outcome_bind Py.bind]. rewrite Hformat.
  cbn [mbind outcome_bind Py.bind].
  rewrite (ApiProps.json_response_renders _ _ Hrenders). clear Hrenders.
  cbn [try_except_Exception].
  split; [|by repeat split].
  eexists. split; [reflexivity|]. unfold saved_response.
  split; [|split].
  - do 2 (rewrite lookup_insert_ne by done). by rewrite lookup_insert_eq.
  - rewrite lookup_insert_ne by done. by rewrite lookup_insert_eq.
  - rewrite !lookup_insert_ne by done. by rewrite lookup_insert_eq.
Qed.

Lemma save_analysis_created_witness :
  (exists body,
      fst (save_analysis_to_database Store.service MoreSamples.columns
             MoreSamples.request [])
        = Return {| status_code := 201; content := body |} /\
      body !! "database_id" = Some (PyStr "0") /\
      body !! "saved_at" = Some (PyStr "2025-01-01T00:00:00") /\
      body !! "success" = Some (PyBool true)) /\
  snd (save_analysis_to_database Store.service MoreSamples.columns
         MoreSamples.request [])
    = snd (Store.create [] (new_script_of_request MoreSamples.request)) /\
  new_analysis_data (new_script_of_request MoreSamples.request)
    = PyDict [("total_scenes", PyInt 12)] /\
  new_original_filename (new_script_of_request MoreSamples.request)
    = PyStr "script.pdf".
Proof.
  apply (save_analysis_created Store.service MoreSamples.columns MoreSamples.request
           [] MoreSamples.created "2025-01-01T00:00:00");
    reflexivity.
Defined.

End Api2Extras.
